(** * Shallow embedding of the babble-ssb-simulator plotting scripts

    Two scripts are embedded:
    - [src/visualize-results.py]  (module [Visualizer]): loads CSV result
      tables, filters failed trials, groups / pivots them and saves one
      figure per chart;
    - [src/data/index.py]         (module [StaticFigure]): the grouped bar
      chart drawn from literal arrays.

    Conventions of the embedding
    - floating point cells are rationals ([Q]); integer cells are [Z];
      a missing cell (pandas NaN) is [None];
    - a [DataFrame] is its header ([columns]) and its rows; reading a
      column that is not in the header raises [KeyError];
    - Python exceptions are the constructors of [exn]; a function that can
      raise returns a [result]; a function that also prints or saves a
      figure lives in [Script], a writer-plus-error monad whose log is the
      list of observable [event]s;
    - a matplotlib figure is the record of what was handed to the plotting
      calls (the plotted columns, markers, labels, titles); purely cosmetic
      calls (grid, font sizes, legends, annotations) are left out. *)

From Stdlib Require Import List String Ascii Bool Arith ZArith QArith Lia Permutation.
From Stdlib Require Import Sorted SetoidList SetoidPermutation.
Import ListNotations.

Local Open Scope string_scope.
Local Open Scope list_scope.

(* ================================================================== *)
(** ** Python values, exceptions and the two monads *)
(* ================================================================== *)

Inductive exn : Type :=
| KeyError (key : string)      (* column missing from a frame *)
| IndexError                   (* [l[0]] / [.iloc[0]] on an empty sequence *)
| TypeError                    (* ordering a str against a float NaN *)
| ValueError                   (* matplotlib / seaborn given an empty layout *)
| FileNotFoundError (path : string).

Inductive result (A : Type) : Type :=
| Ok (a : A)
| Raise (e : exn).
Arguments Ok {A} a.
Arguments Raise {A} e.

Definition rbind {A B} (m : result A) (k : A -> result B) : result B :=
  match m with
  | Ok a => k a
  | Raise e => Raise e
  end.

Declare Scope result_scope.
Delimit Scope result_scope with result.
Notation "x <- m ;; k" := (rbind m (fun x => k))
  (at level 61, m at next level, right associativity) : result_scope.
Notation "m ;; k" := (rbind m (fun _ => k))
  (at level 61, right associativity) : result_scope.

(** [for x in l: ... continue ... plot(...)]: the body either skips the
    element ([None]) or contributes one artist; an exception aborts. *)
Fixpoint for_collect {A B} (l : list A) (body : A -> result (option B))
  : result (list B) :=
  match l with
  | [] => Ok []
  | a :: l' =>
      match body a with
      | Raise e => Raise e
      | Ok o =>
          match for_collect l' body with
          | Raise e => Raise e
          | Ok bs => Ok (match o with Some b => b :: bs | None => bs end)
          end
      end
  end.

(** [for x in l: ...] where every iteration contributes. *)
Fixpoint for_each {A B} (l : list A) (body : A -> result B) : result (list B) :=
  match l with
  | [] => Ok []
  | a :: l' =>
      match body a with
      | Raise e => Raise e
      | Ok b =>
          match for_each l' body with
          | Raise e => Raise e
          | Ok bs => Ok (b :: bs)
          end
      end
  end.

Definition enumerate {A} (l : list A) : list (nat * A) :=
  combine (seq 0 (List.length l)) l.

(* ================================================================== *)
(** ** Strings: the [str] and [os.path] operations the scripts use *)
(* ================================================================== *)

Module PyStr.

Definition startswith (s p : string) : bool := String.prefix p s.

Definition endswith (s suf : string) : bool :=
  (String.length suf <=? String.length s)%nat &&
  (substring (String.length s - String.length suf) (String.length suf) s =? suf).

(** [sub in s] *)
Fixpoint contains (sub s : string) : bool :=
  String.prefix sub s ||
  match s with
  | EmptyString => false
  | String _ s' => contains sub s'
  end.

(** [s.split(c)[0]]: everything before the first [c]. *)
Fixpoint split_head (c : ascii) (s : string) : string :=
  match s with
  | EmptyString => EmptyString
  | String a s' => if Ascii.eqb a c then EmptyString else String a (split_head c s')
  end.

(** [s.rfind(c)], as an option instead of -1. *)
Fixpoint rfind (c : ascii) (s : string) : option nat :=
  match s with
  | EmptyString => None
  | String a s' =>
      match rfind c s' with
      | Some i => Some (S i)
      | None => if Ascii.eqb a c then Some 0%nat else None
      end
  end.

(** is every character of [s] in positions [from, to) a dot? *)
Definition all_dots (s : string) (from to : nat) : bool :=
  forallb (fun i => match String.get i s with
                    | Some a => Ascii.eqb a "."
                    | None => true
                    end) (seq from (to - from)).

(** [os.path.splitext(p)[0]] (genericpath._splitext): cut at the last
    dot of the last path component unless only dots precede it. *)
Definition splitext_root (p : string) : string :=
  match rfind "." p with
  | None => p
  | Some dotIndex =>
      let filenameIndex :=
        match rfind "/" p with Some sepIndex => S sepIndex | None => 0%nat end in
      if (filenameIndex <=? dotIndex)%nat && negb (all_dots p filenameIndex dotIndex)
      then substring 0 dotIndex p
      else p
  end.

(** [os.path.join(a, b)] (posixpath). *)
Definition path_join (a b : string) : string :=
  if startswith b "/" then b
  else if (a =? "") || endswith a "/" then a ++ b
  else a ++ "/" ++ b.

End PyStr.

(* ================================================================== *)
(** ** Sequences: [sorted], [unique], means and medians *)
(* ================================================================== *)

Section Sequences.
Context {A : Type}.
Variable eqb : A -> A -> bool.
Variable leb : A -> A -> bool.

(** [Series.unique()]: distinct values in order of first appearance. *)
Fixpoint unique (l : list A) : list A :=
  match l with
  | [] => []
  | x :: l' => x :: filter (fun y => negb (eqb x y)) (unique l')
  end.

Fixpoint insert_sorted (x : A) (l : list A) : list A :=
  match l with
  | [] => [x]
  | y :: l' => if leb x y then x :: l else y :: insert_sorted x l'
  end.

(** [sorted(l)] / [sort_values]: ascending, equal keys keep their order. *)
Definition sorted (l : list A) : list A := fold_right insert_sorted [] l.
End Sequences.

Definition Qsum (l : list Q) : Q := fold_left Qplus l 0%Q.

(** [Series.mean()]; NaN ([None]) on an empty series. *)
Definition mean (l : list Q) : option Q :=
  match l with
  | [] => None
  | _ => Some (Qsum l / inject_Z (Z.of_nat (List.length l)))%Q
  end.

(** [Series.median()]; NaN ([None]) on an empty series. *)
Definition median (l : list Q) : option Q :=
  let s := sorted Qle_bool l in
  let n := List.length s in
  match n with
  | O => None
  | _ =>
      if Nat.even n
      then Some ((nth (n / 2 - 1) s 0 + nth (n / 2) s 0) / 2)%Q
      else Some (nth (n / 2) s 0%Q)
  end.

(* ================================================================== *)
(** ** The result table (a pandas DataFrame of experiment records) *)
(* ================================================================== *)

(** One experiment record.  The five measurement cells always hold a
    value; the optional cells are [None] when the cell is NaN (empty in
    the CSV, or filled in by [pd.concat] for a frame without the column). *)
Record Row : Type := mkRow {
  networkProfile      : option string;
  nodeNum             : Z;
  byzantinePercentage : Q;
  meanTime            : Q;
  stdTime             : Q;
  networkMean         : option Q;
  networkStd          : option Q;
  failure             : option bool;
  time_per_node       : option Q
}.

Record DataFrame : Type := mkDataFrame {
  columns : list string;
  rows    : list Row
}.

(** [pd.DataFrame()] *)
Definition empty_frame : DataFrame := mkDataFrame [] [].

(** [name in df.columns] *)
Definition has_column (df : DataFrame) (name : string) : bool :=
  existsb (String.eqb name) (columns df).

(** [df[name]]: the cells of one column, or [KeyError]. *)
Definition column {A} (df : DataFrame) (name : string) (cell : Row -> A)
  : result (list A) :=
  if has_column df name then Ok (map cell (rows df)) else Raise (KeyError name).

(** [df[mask]] for a mask computed row by row. *)
Definition where_ (df : DataFrame) (mask : Row -> bool) : DataFrame :=
  mkDataFrame (columns df) (filter mask (rows df)).

(** [len(df)] *)
Definition len (df : DataFrame) : nat := List.length (rows df).

(** [Series.fillna(d)] on one cell. *)
Definition fillna {A} (d : A) (cell : option A) : A :=
  match cell with Some v => v | None => d end.

(** [Series.iloc[0]] *)
Definition iloc0 {A} (l : list A) : result A :=
  match l with
  | [] => Raise IndexError
  | x :: _ => Ok x
  end.

(** [df[df['networkProfile'] == profile]]: a NaN cell equals nothing, and
    nothing equals a NaN [profile]. *)
Definition profile_eqb (cell profile : option string) : bool :=
  match cell, profile with
  | Some a, Some b => String.eqb a b
  | _, _ => false
  end.

(** Equality used by [unique()] on the profile column: NaNs are merged. *)
Definition profile_same (a b : option string) : bool :=
  match a, b with
  | Some x, Some y => String.eqb x y
  | None, None => true
  | _, _ => false
  end.

Definition is_nan {A} (c : option A) : bool :=
  match c with None => true | Some _ => false end.

(** [sorted(series.unique())] on the profile column.  Python refuses to
    order a [str] against the float NaN, so a NaN next to anything else
    raises [TypeError]; a single value needs no comparison. *)
Definition sorted_profiles (cells : list (option string))
  : result (list (option string)) :=
  let u := unique profile_same cells in
  if existsb is_nan u && (1 <? List.length u)%nat then Raise TypeError
  else Ok (sorted (fun a b => String.leb (fillna "" a) (fillna "" b)) u).

(** [sorted(series.unique())] on the Byzantine-percentage column. *)
Definition sorted_percentages (cells : list Q) : list Q :=
  sorted Qle_bool (unique Qeq_bool cells).

(** [df.sort_values('nodeNum')]; rows with the same node count stay in
    table order here, while pandas leaves their relative order open. *)
Definition sort_by_nodeNum (l : list Row) : list Row :=
  sorted (fun a b => (nodeNum a <=? nodeNum b)%Z) l.

(** [df[col] = value] for the [networkProfile] column. *)
Definition set_networkProfile (df : DataFrame) (value : string) : DataFrame :=
  mkDataFrame
    (if has_column df "networkProfile" then columns df
     else columns df ++ ["networkProfile"])
    (map (fun r => mkRow (Some value) (nodeNum r) (byzantinePercentage r)
                         (meanTime r) (stdTime r) (networkMean r) (networkStd r)
                         (failure r) (time_per_node r)) (rows df)).

(** [df['time_per_node'] = df['meanTime'] / df['nodeNum']]; the quotient
    by a zero node count is not a finite number and is kept as [None]. *)
Definition set_time_per_node (df : DataFrame) : DataFrame :=
  mkDataFrame
    (if has_column df "time_per_node" then columns df
     else columns df ++ ["time_per_node"])
    (map (fun r => mkRow (networkProfile r) (nodeNum r) (byzantinePercentage r)
                         (meanTime r) (stdTime r) (networkMean r) (networkStd r)
                         (failure r)
                         (if (nodeNum r =? 0)%Z then None
                          else Some (meanTime r / inject_Z (nodeNum r))%Q))
         (rows df)).

(** The cells a row contributes to a frame with header [cols]: optional
    cells of columns the source frame does not have become NaN. *)
Definition reindex (cols : list string) (r : Row) : Row :=
  let keep {A} (name : string) (c : option A) : option A :=
    if existsb (String.eqb name) cols then c else None in
  mkRow (keep "networkProfile" (networkProfile r)) (nodeNum r)
        (byzantinePercentage r) (meanTime r) (stdTime r)
        (keep "networkMean" (networkMean r)) (keep "networkStd" (networkStd r))
        (keep "failure" (failure r)) (keep "time_per_node" (time_per_node r)).

(** [pd.concat([a, b])]: union of the headers, rows of [a] then of [b]. *)
Definition pd_concat (a b : DataFrame) : DataFrame :=
  mkDataFrame
    (columns a ++ filter (fun c => negb (has_column a c)) (columns b))
    (map (reindex (columns a)) (rows a) ++ map (reindex (columns b)) (rows b)).

(* ================================================================== *)
(** ** What a script can observe and emit *)
(* ================================================================== *)

(** The part of the file system the scripts touch.  A CSV file is
    represented by the table [pd.read_csv] parses from it; paths are
    compared as written. *)
Record FileSystem : Type := mkFS {
  fs_dirs  : list string;
  fs_files : list (string * DataFrame)
}.

Definition os_path_exists (fs : FileSystem) (path : string) : bool :=
  existsb (String.eqb path) (fs_dirs fs) ||
  existsb (fun e => String.eqb path (fst e)) (fs_files fs).

(** the entry name of [path] inside directory [dir], if it is one *)
Definition entry_of (dir path : string) : option string :=
  let pre := (dir ++ "/")%string in
  if String.prefix pre path then
    let name := substring (String.length pre) (String.length path - String.length pre) path in
    if (name =? "") || PyStr.contains "/" name then None else Some name
  else None.

Definition option_to_list {A} (o : option A) : list A :=
  match o with Some a => [a] | None => [] end.

(** [os.listdir(dir)]; the order is whatever the file system gives. *)
Definition os_listdir (fs : FileSystem) (dir : string) : result (list string) :=
  if existsb (String.eqb dir) (fs_dirs fs) then
    Ok (flat_map (fun e => option_to_list (entry_of dir (fst e))) (fs_files fs)
        ++ flat_map (fun d => option_to_list (entry_of dir d)) (fs_dirs fs))
  else Raise (FileNotFoundError dir).

(** [pd.read_csv(path)]; a path that holds no CSV file (a directory, or
    nothing) raises. *)
Definition read_csv (fs : FileSystem) (path : string) : result DataFrame :=
  match find (fun e => String.eqb path (fst e)) (fs_files fs) with
  | Some e => Ok (snd e)
  | None => Raise (FileNotFoundError path)
  end.

(* ------------------------------------------------------------------ *)
(** *** Figures: what was handed to matplotlib / seaborn *)

Inductive Label : Type :=
| NoLabel
| ByzantineNodes (percentage : Q)                         (* f"Byzantine nodes: {percentage}%" *)
| ProfileByzantine (profile : option string) (percentage : Q).
                                                          (* f"{profile}, {percentage}% Byzantine" *)

(** [data['networkMean'].iloc[0] if 'networkMean' in data.columns else 'Unknown'] *)
Inductive Delay : Type :=
| Unknown
| Known (seconds : option Q).

(** [ax.errorbar(x, y, yerr=..., marker=..., label=...)] *)
Record ErrorBar : Type := mkErrorBar {
  eb_x : list Z; eb_y : list Q; eb_yerr : list Q;
  eb_marker : string; eb_label : Label
}.

(** [ax.plot(x, y, marker=..., label=...)] *)
Record Line : Type := mkLine {
  ln_x : list Z; ln_y : list (option Q);
  ln_marker : string; ln_label : Label
}.

(** [ax.scatter(x, y, z, ...)] followed by [ax.plot(x, y, z, ...)] on the
    same three columns *)
Record Scatter : Type := mkScatter {
  sc_x : list Z; sc_y : list Q; sc_z : list Q;
  sc_color : string; sc_marker : string; sc_label : Label
}.

(** the frame [pivot_table] returns: row labels, column labels, cells *)
Record Pivot : Type := mkPivot {
  pv_index : list Z; pv_columns : list Q;
  pv_values : list (list (option Q))
}.

(** one rectangle of [ax.bar(x, height, width, color=..., yerr=...)] *)
Record Bar : Type := mkBar {
  bar_x : Q; bar_height : Q; bar_width : Q;
  bar_color : string; bar_yerr : Q; bar_label : string
}.

Record Subplot : Type := mkSubplot {
  sp_profile : option string;
  sp_series : list ErrorBar;
  sp_mean_delay : Delay; sp_std_delay : Delay
}.

Inductive GridCell : Type :=
| NoData                                       (* ax.text(0.5, 0.5, 'No Data') *)
| CellPlot (eb : ErrorBar) (title : Label).

Inductive Figure : Type :=
| ImpactFigure (series : list ErrorBar) (network_name : string)
               (mean_delay std_delay : Delay)
| CombinedFigure (subplots : list Subplot)
| ScalingFigure (lines : list Line) (scaling_factor : option Q)
                (fastest_profile : option string)
| ScatterFigure (artists : list Scatter)
| HeatmapFigure (pivot : Pivot) (profile : option string)
                (mean_delay std_delay : Delay)
| GridFigure (cells : list (nat * nat * GridCell))
| BarFigure (bars : list Bar) (xticklabels : list string).

Inductive event : Type :=
| Print (msg : string)
| MakeDirs (path : string)
| SaveFig (path : string) (fig : Figure).

(** A script step: the events emitted so far and how the step ended. *)
Definition Script (A : Type) : Type := (list event * result A)%type.

Definition sret {A} (a : A) : Script A := ([], Ok a).

Definition sbind {A B} (m : Script A) (k : A -> Script B) : Script B :=
  match m with
  | (log, Ok a) => let (log', r) := k a in (log ++ log', r)
  | (log, Raise e) => (log, Raise e)
  end.

Definition lift {A} (r : result A) : Script A := ([], r).
Definition print (msg : string) : Script unit := ([Print msg], Ok tt).
Definition savefig (path : string) (fig : Figure) : Script unit :=
  ([SaveFig path fig], Ok tt).

Declare Scope script_scope.
Delimit Scope script_scope with script.
Notation "x <- m ;; k" := (sbind m (fun x => k))
  (at level 61, m at next level, right associativity) : script_scope.
Notation "m ;; k" := (sbind m (fun _ => k))
  (at level 61, right associativity) : script_scope.

(** [for x in l: body(x)] in a script; an exception ends the loop. *)
Fixpoint sfor {A} (l : list A) (body : A -> Script unit) : Script unit :=
  match l with
  | [] => sret tt
  | a :: l' => sbind (body a) (fun _ => sfor l' body)
  end.

Definition events {A} (s : Script A) : list event := fst s.
Definition outcome {A} (s : Script A) : result A := snd s.

(** the paths of the image files a run wrote *)
Definition saved_paths (log : list event) : list string :=
  flat_map (fun e => match e with SaveFig p _ => [p] | _ => [] end) log.

(* ================================================================== *)
(** ** src/visualize-results.py *)
(* ================================================================== *)

Module Visualizer.

Definition RESULTS_DIR : string := "results".
Definition OUTPUT_DIR : string := "visualizations".

Definition COLORS_primary : string := "#1f77b4".
Definition COLORS_secondary : string := "#ff7f0e".
Definition COLORS_tertiary : string := "#2ca02c".
Definition COLORS_quaternary : string := "#d62728".

(** lines 36-37 and 562-563:
    [if not os.path.exists(OUTPUT_DIR): os.makedirs(OUTPUT_DIR)] *)
Definition ensure_output_dir (fs : FileSystem) : FileSystem * list event :=
  if os_path_exists fs OUTPUT_DIR then (fs, [])
  else (mkFS (OUTPUT_DIR :: fs_dirs fs) (fs_files fs), [MakeDirs OUTPUT_DIR]).

(** lines 40-45 *)
Definition load_data (fs : FileSystem) (filename : string)
  : Script (option DataFrame) :=
  let filepath := PyStr.path_join RESULTS_DIR filename in
  if negb (os_path_exists fs filepath) then
    (print ("Warning: File not found: " ++ filepath) ;;
     sret None)%script
  else
    (df <- lift (read_csv fs filepath) ;;
     sret (Some df))%script.

(** "Filter out failed experiments":
    [if 'failure' in data.columns:
         data = data[~data['failure'].fillna(False)]] *)
Definition filter_out_failed (data : DataFrame) : DataFrame :=
  if has_column data "failure"
  then where_ data (fun r => negb (fillna false (failure r)))
  else data.

(** [frame[frame['byzantinePercentage'] == percentage].sort_values('nodeNum')] *)
Definition percentage_data (frame : DataFrame) (percentage : Q)
  : result DataFrame :=
  (_ <- column frame "byzantinePercentage" byzantinePercentage ;;
   let selected :=
     where_ frame (fun r => Qeq_bool (byzantinePercentage r) percentage) in
   _ <- column selected "nodeNum" nodeNum ;;
   Ok (mkDataFrame (columns selected) (sort_by_nodeNum (rows selected))))%result.

(** [all_data[all_data['networkProfile'] == profile]] *)
Definition profile_data_of (all_data : DataFrame) (profile : option string)
  : result DataFrame :=
  (_ <- column all_data "networkProfile" networkProfile ;;
   Ok (where_ all_data (fun r => profile_eqb (networkProfile r) profile)))%result.

(** [markers[i % len(markers)]] *)
Definition marker_at (markers : list string) (i : nat) : string :=
  nth (i mod List.length markers) markers "".

Definition markers7 : list string := ["o"; "s"; "^"; "D"; "v"; "p"; "*"].
Definition markers4 : list string := ["o"; "s"; "^"; "D"].

(** the [ax.errorbar(...)] call shared by lines 102-111, 204-213, 518-526 *)
Definition errorbar (percentage_data : DataFrame) (marker : string)
           (label : Label) : result ErrorBar :=
  (x <- column percentage_data "nodeNum" nodeNum ;;
   y <- column percentage_data "meanTime" meanTime ;;
   yerr <- column percentage_data "stdTime" stdTime ;;
   Ok (mkErrorBar x y yerr marker label))%result.

(** [data[c].iloc[0] if c in data.columns else 'Unknown'] *)
Definition delay_of (data : DataFrame) (name : string)
           (cell : Row -> option Q) : result Delay :=
  if has_column data name
  then (v <- iloc0 (map cell (rows data)) ;; Ok (Known v))%result
  else Ok Unknown.

(** f-string rendering of a profile cell *)
Definition format_profile (profile : option string) : string :=
  fillna "nan" profile.

(* ---------------------------------------------------------------- *)
(** *** plot_byzantine_impact (lines 79-148) *)

(** lines 92-111: one error-bar line per Byzantine percentage *)
Definition impact_series (data : DataFrame) (byzantine_percentages : list Q)
  : result (list ErrorBar) :=
  for_collect (enumerate byzantine_percentages)
    (fun '(i, percentage) =>
       (percentage_data <- percentage_data data percentage ;;
        if (len percentage_data =? 0)%nat then Ok None
        else
          eb <- errorbar percentage_data (marker_at markers7 i)
                         (ByzantineNodes percentage) ;;
          Ok (Some eb))%result).

Definition byzantine_impact_figure (data : DataFrame) (output_filename : string)
  : result Figure :=
  let data := filter_out_failed data in
  (pcts <- column data "byzantinePercentage" byzantinePercentage ;;
   let byzantine_percentages := sorted_percentages pcts in
   series <- impact_series data byzantine_percentages ;;
   (* lines 115-126: data['nodeNum'].max(), data['meanTime'].max() *)
   _ <- column data "nodeNum" nodeNum ;;
   _ <- column data "meanTime" meanTime ;;
   let network_name := PyStr.split_head "_" output_filename in
   mean_delay <- delay_of data "networkMean" networkMean ;;
   std_delay <- delay_of data "networkStd" networkStd ;;
   Ok (ImpactFigure series network_name mean_delay std_delay))%result.

Definition plot_byzantine_impact (data : DataFrame) (output_filename : string)
  : Script unit :=
  (fig <- lift (byzantine_impact_figure data output_filename) ;;
   savefig (PyStr.path_join OUTPUT_DIR output_filename) fig ;;
   print ("  Plot saved: " ++ output_filename))%script.

(** line 52 / 159:
    [[f for f in os.listdir(RESULTS_DIR)
        if f.endswith('.csv') and 'all-experiments' not in f]] *)
Definition list_data_files (fs : FileSystem) : result (list string) :=
  (listing <- os_listdir fs RESULTS_DIR ;;
   Ok (filter (fun f => PyStr.endswith f ".csv"
                        && negb (PyStr.contains "all-experiments" f)) listing))%result.

(** lines 48-76 *)
Definition create_byzantine_impact_plots (fs : FileSystem) : Script unit :=
  (print "Generating Byzantine impact plots for each network profile..." ;;
   data_files <- lift (list_data_files fs) ;;
   match data_files with
   | [] =>
       all_data <- load_data fs "all-experiments.csv" ;;
       match all_data with
       | None => print "No experiment data found!"
       | Some all_data =>
           cells <- lift (column all_data "networkProfile" networkProfile) ;;
           let network_profiles := unique profile_same cells in
           sfor network_profiles
             (fun profile =>
                profile_data <- lift (profile_data_of all_data profile) ;;
                plot_byzantine_impact profile_data
                  (format_profile profile ++ "_byzantine_impact.png")) ;;
           print "✓ Byzantine impact plots generated"
       end
   | _ =>
       sfor data_files
         (fun file =>
            data <- load_data fs file ;;
            match data with
            | Some data =>
                plot_byzantine_impact data
                  (PyStr.splitext_root file ++ "_byzantine_impact.png")
            | None => sret tt
            end) ;;
       print "✓ Byzantine impact plots generated"
   end)%script.

(* ---------------------------------------------------------------- *)
(** *** create_combined_visualization (lines 151-250) *)

(** lines 164-172: the fallback that combines the individual files *)
Fixpoint combine_files (fs : FileSystem) (data_files : list string)
         (all_data : DataFrame) : Script DataFrame :=
  match data_files with
  | [] => sret all_data
  | file :: rest =>
      (data <- load_data fs file ;;
       match data with
       | Some data =>
           (* "Make sure networkProfile is in the data" *)
           let data :=
             if negb (has_column data "networkProfile")
                && negb (has_column data "networkMean")
             then set_networkProfile data (PyStr.splitext_root file)
             else data in
           combine_files fs rest (pd_concat all_data data)
       | None => combine_files fs rest all_data
       end)%script
  end.

(** lines 194-213: the lines of one subplot *)
Definition subplot_series (profile_data : DataFrame) (first : bool)
           (byzantine_percentages : list Q) : result (list ErrorBar) :=
  for_collect (enumerate byzantine_percentages)
    (fun '(j, percentage) =>
       (percentage_data <- percentage_data profile_data percentage ;;
        if (len percentage_data =? 0)%nat then Ok None
        else
          eb <- errorbar percentage_data (marker_at markers7 j)
                         (if first then ByzantineNodes percentage else NoLabel) ;;
          Ok (Some eb))%result).

(** lines 174-243, on the table obtained at lines 155-172 *)
Definition combined_figure (all_data : DataFrame) : result Figure :=
  let all_data := filter_out_failed all_data in
  (cells <- column all_data "networkProfile" networkProfile ;;
   network_profiles <- sorted_profiles cells ;;
   pcts <- column all_data "byzantinePercentage" byzantinePercentage ;;
   let byzantine_percentages := sorted_percentages pcts in
   (* plt.subplots(len(network_profiles), 1, ...) rejects zero rows *)
   if (List.length network_profiles =? 0)%nat then Raise ValueError
   else
     subplots <- for_each (enumerate network_profiles)
       (fun '(i, profile) =>
          profile_data <- profile_data_of all_data profile ;;
          series <- subplot_series profile_data (i =? 0)%nat byzantine_percentages ;;
          mean_delay <- delay_of profile_data "networkMean" networkMean ;;
          std_delay <- delay_of profile_data "networkStd" networkStd ;;
          (* lines 224-230: all_data['meanTime'].max(), all_data['nodeNum'].max() *)
          _ <- column all_data "meanTime" meanTime ;;
          _ <- column all_data "nodeNum" nodeNum ;;
          Ok (mkSubplot profile series mean_delay std_delay)) ;;
     Ok (CombinedFigure subplots))%result.

Definition create_combined_visualization (fs : FileSystem) : Script unit :=
  (print "Generating combined network profile visualization..." ;;
   loaded <- load_data fs "all-experiments.csv" ;;
   all_data <-
     match loaded with
     | Some all_data => sret (Some all_data)
     | None =>
         data_files <- lift (list_data_files fs) ;;
         match data_files with
         | [] => print "No experiment data found!" ;; sret None
         | _ => all_data <- combine_files fs data_files empty_frame ;;
                sret (Some all_data)
         end
     end ;;
   match all_data with
   | None => sret tt
   | Some all_data =>
       fig <- lift (combined_figure all_data) ;;
       savefig (PyStr.path_join OUTPUT_DIR "combined_network_profiles.png") fig ;;
       print "✓ Combined network profile visualization generated"
   end)%script.

(* ---------------------------------------------------------------- *)
(** *** create_normalized_scaling_plot (lines 253-337) *)

(** line 290: [percentage_data['time_per_node'] =
               percentage_data['meanTime'] / percentage_data['nodeNum']] *)
Definition with_time_per_node (percentage_data : DataFrame) : result DataFrame :=
  (_ <- column percentage_data "meanTime" meanTime ;;
   _ <- column percentage_data "nodeNum" nodeNum ;;
   Ok (set_time_per_node percentage_data))%result.

(** lines 282-301 *)
Definition scaling_lines (profile_data : DataFrame)
           (byzantine_percentages : list Q) : result (list Line) :=
  for_collect (enumerate byzantine_percentages)
    (fun '(i, percentage) =>
       (percentage_data <- percentage_data profile_data percentage ;;
        if (len percentage_data =? 0)%nat then Ok None
        else
          percentage_data <- with_time_per_node percentage_data ;;
          x <- column percentage_data "nodeNum" nodeNum ;;
          y <- column percentage_data "time_per_node" time_per_node ;;
          Ok (Some (mkLine x y (marker_at markers7 i)
                           (ByzantineNodes percentage))))%result).

(** [a.median() / b.median()]; NaN when either is, or the quotient is
    not finite *)
Definition median_ratio (a b : list Q) : option Q :=
  match median a, median b with
  | Some ma, Some mb => if Qeq_bool mb 0 then None else Some (ma / mb)%Q
  | _, _ => None
  end.

(** lines 276-278: "we'll focus on one network profile (fastest)"
    [network_profiles = sorted(all_data['networkProfile'].unique())
     fastest_profile = network_profiles[0]  # Assuming sorted by speed] *)
Definition fastest_profile (all_data : DataFrame) : result (option string) :=
  (cells <- column all_data "networkProfile" networkProfile ;;
   network_profiles <- sorted_profiles cells ;;
   iloc0 network_profiles)%result.

(** lines 263-321, on the table loaded at line 257 *)
Definition normalized_scaling_figure (all_data : DataFrame) : result Figure :=
  let all_data := filter_out_failed all_data in
  (pcts <- column all_data "byzantinePercentage" byzantinePercentage ;;
   let byzantine_percentages := sorted_percentages pcts in
   fastest_profile <- fastest_profile all_data ;;
   profile_data <- profile_data_of all_data fastest_profile ;;
   lines <- scaling_lines profile_data byzantine_percentages ;;
   (* line 304: all_data['nodeNum'].max() *)
   _ <- column all_data "nodeNum" nodeNum ;;
   (* line 307 *)
   tpn <- column profile_data "time_per_node" time_per_node ;;
   nodes <- column profile_data "nodeNum" nodeNum ;;
   let scaling_factor :=
     median_ratio (flat_map option_to_list tpn) (map inject_Z nodes) in
   Ok (ScalingFigure lines scaling_factor fastest_profile))%result.

Definition create_normalized_scaling_plot (fs : FileSystem) : Script unit :=
  (print "Generating normalized scaling plot..." ;;
   all_data <- load_data fs "all-experiments.csv" ;;
   match all_data with
   | None => print "No experiment data found!"
   | Some all_data =>
       fig <- lift (normalized_scaling_figure all_data) ;;
       savefig (PyStr.path_join OUTPUT_DIR "normalized_scaling.png") fig ;;
       print "✓ Normalized scaling plot generated"
   end)%script.

(* ---------------------------------------------------------------- *)
(** *** create_3d_visualization (lines 340-420) *)

Definition profile_colors : list string :=
  [COLORS_primary; COLORS_tertiary; COLORS_secondary; COLORS_quaternary].

(** lines 373-399 *)
Definition scatter_series (profile_data : DataFrame) (i : nat)
           (profile : option string) (byzantine_percentages : list Q)
  : result (list Scatter) :=
  for_collect (enumerate byzantine_percentages)
    (fun '(j, percentage) =>
       (percentage_data <- percentage_data profile_data percentage ;;
        if (len percentage_data =? 0)%nat then Ok None
        else
          x <- column percentage_data "nodeNum" nodeNum ;;
          y <- column percentage_data "byzantinePercentage" byzantinePercentage ;;
          z <- column percentage_data "meanTime" meanTime ;;
          Ok (Some (mkScatter x y z (marker_at profile_colors i)
                              (marker_at markers4 j)
                              (if (j =? 0)%nat
                               then ProfileByzantine profile percentage
                               else NoLabel))))%result).

(** lines 350-413 *)
Definition scatter3d_figure (all_data : DataFrame) : result Figure :=
  let all_data := filter_out_failed all_data in
  (cells <- column all_data "networkProfile" networkProfile ;;
   network_profiles <- sorted_profiles cells ;;
   pcts <- column all_data "byzantinePercentage" byzantinePercentage ;;
   let byzantine_percentages := sorted_percentages pcts in
   artists <- for_each (enumerate network_profiles)
     (fun '(i, profile) =>
        profile_data <- profile_data_of all_data profile ;;
        scatter_series profile_data i profile byzantine_percentages) ;;
   Ok (ScatterFigure (List.concat artists)))%result.

Definition create_3d_visualization (fs : FileSystem) : Script unit :=
  (print "Generating 3D visualization..." ;;
   all_data <- load_data fs "all-experiments.csv" ;;
   match all_data with
   | None => print "No experiment data found!"
   | Some all_data =>
       fig <- lift (scatter3d_figure all_data) ;;
       savefig (PyStr.path_join OUTPUT_DIR "3d_visualization.png") fig ;;
       print "✓ 3D visualization generated"
   end)%script.

(* ---------------------------------------------------------------- *)
(** *** create_heatmaps (lines 423-478) *)

Definition group_key (r : Row) : Z * Q := (nodeNum r, byzantinePercentage r).

Definition key_eqb (a b : Z * Q) : bool :=
  (fst a =? fst b)%Z && Qeq_bool (snd a) (snd b).

(** [groupby(['nodeNum', 'byzantinePercentage'])['meanTime'].mean()]:
    one entry per distinct key, the mean over the rows carrying it *)
Definition groupby_mean (l : list Row) : list ((Z * Q) * option Q) :=
  map (fun k =>
         (k, mean (map meanTime (filter (fun r => key_eqb (group_key r) k) l))))
      (unique key_eqb (map group_key l)).

Definition lookup_group (k : Z * Q) (groups : list ((Z * Q) * option Q))
  : option Q :=
  match find (fun e => key_eqb (fst e) k) groups with
  | Some e => snd e
  | None => None
  end.

(** lines 445-450: [pivot_table(index='nodeNum',
    columns='byzantinePercentage', values='meanTime', aggfunc='mean')],
    i.e. the grouped means unstacked into a grid, NaN where a
    (node count, percentage) pair has no group *)
Definition pivot_table (df : DataFrame) : result Pivot :=
  (index_cells <- column df "nodeNum" nodeNum ;;
   column_cells <- column df "byzantinePercentage" byzantinePercentage ;;
   _ <- column df "meanTime" meanTime ;;
   let groups := groupby_mean (rows df) in
   let index := sorted Z.leb (unique Z.eqb index_cells) in
   let cols := sorted_percentages column_cells in
   Ok (mkPivot index cols
         (map (fun x => map (fun y => lookup_group (x, y) groups) cols) index)))%result.

Fixpoint index_of {A} (same : A -> bool) (l : list A) : option nat :=
  match l with
  | [] => None
  | a :: l' => if same a then Some 0%nat
               else match index_of same l' with
                    | Some i => Some (S i)
                    | None => None
                    end
  end.

(** the cell of the pivot labelled (node count [x], percentage [y]);
    [None] when the cell is NaN or the pivot has no such label *)
Definition pivot_at (pv : Pivot) (x : Z) (y : Q) : option Q :=
  match index_of (Z.eqb x) (pv_index pv), index_of (Qeq_bool y) (pv_columns pv) with
  | Some i, Some j => nth j (nth i (pv_values pv) []) None
  | _, _ => None
  end.

(** lines 442-471 for one profile, on the filtered table *)
Definition heatmap_figure (all_data : DataFrame) (profile : option string)
  : result Figure :=
  (profile_data <- profile_data_of all_data profile ;;
   pivot <- pivot_table profile_data ;;
   (* sns.heatmap cannot take the minimum of an empty grid *)
   if (List.length (pv_index pivot) =? 0)%nat then Raise ValueError
   else
     mean_delay <- delay_of profile_data "networkMean" networkMean ;;
     std_delay <- delay_of profile_data "networkStd" networkStd ;;
     Ok (HeatmapFigure pivot profile mean_delay std_delay))%result.

Definition create_heatmaps (fs : FileSystem) : Script unit :=
  (print "Generating heatmaps..." ;;
   all_data <- load_data fs "all-experiments.csv" ;;
   match all_data with
   | None => print "No experiment data found!"
   | Some all_data =>
       let all_data := filter_out_failed all_data in
       cells <- lift (column all_data "networkProfile" networkProfile) ;;
       network_profiles <- lift (sorted_profiles cells) ;;
       sfor network_profiles
         (fun profile =>
            fig <- lift (heatmap_figure all_data profile) ;;
            savefig (PyStr.path_join OUTPUT_DIR
                       (format_profile profile ++ "_heatmap.png")) fig) ;;
       print "✓ Heatmaps generated"
   end)%script.

(* ---------------------------------------------------------------- *)
(** *** create_comprehensive_visualization (lines 481-555) *)

(** lines 507-543: the cells of one grid row *)
Definition grid_row (all_data profile_data : DataFrame) (i : nat)
           (profile : option string) (byzantine_percentages : list Q)
  : result (list (nat * nat * GridCell)) :=
  for_each (enumerate byzantine_percentages)
    (fun '(j, percentage) =>
       (percentage_data <- percentage_data profile_data percentage ;;
        if (len percentage_data =? 0)%nat then Ok (i, j, NoData)
        else
          eb <- errorbar percentage_data "o" NoLabel ;;
          (* line 543: all_data['meanTime'].max() *)
          _ <- column all_data "meanTime" meanTime ;;
          Ok (i, j, CellPlot eb (ProfileByzantine profile percentage)))%result).

(** lines 491-546 *)
Definition comprehensive_figure (all_data : DataFrame) : result Figure :=
  let all_data := filter_out_failed all_data in
  (cells <- column all_data "networkProfile" networkProfile ;;
   network_profiles <- sorted_profiles cells ;;
   pcts <- column all_data "byzantinePercentage" byzantinePercentage ;;
   let byzantine_percentages := sorted_percentages pcts in
   (* fig.add_gridspec(nrows, ncols) rejects an empty grid *)
   if (List.length network_profiles =? 0)%nat
      || (List.length byzantine_percentages =? 0)%nat
   then Raise ValueError
   else
     grid <- for_each (enumerate network_profiles)
       (fun '(i, profile) =>
          profile_data <- profile_data_of all_data profile ;;
          grid_row all_data profile_data i profile byzantine_percentages) ;;
     Ok (GridFigure (List.concat grid)))%result.

Definition create_comprehensive_visualization (fs : FileSystem) : Script unit :=
  (print "Generating comprehensive visualization..." ;;
   all_data <- load_data fs "all-experiments.csv" ;;
   match all_data with
   | None => print "No experiment data found!"
   | Some all_data =>
       fig <- lift (comprehensive_figure all_data) ;;
       savefig (PyStr.path_join OUTPUT_DIR "comprehensive_visualization.png") fig ;;
       print "✓ Comprehensive visualization generated"
   end)%script.

(* ---------------------------------------------------------------- *)
(** *** main (lines 558-573) and the script as run *)

Definition newline : string := String (ascii_of_nat 10) EmptyString.

Definition main (fs : FileSystem) : Script unit :=
  let (fs, made) := ensure_output_dir fs in
  (print "Starting visualization generation..." ;;
   (made, Ok tt) ;;
   create_byzantine_impact_plots fs ;;
   create_combined_visualization fs ;;
   create_normalized_scaling_plot fs ;;
   create_3d_visualization fs ;;
   create_heatmaps fs ;;
   create_comprehensive_visualization fs ;;
   print (newline ++ "All visualizations complete! Output saved to: " ++ OUTPUT_DIR))%script.

(** [python visualize-results.py]: the module-level statements (the
    directory check of lines 36-37), then [main()] *)
Definition run (fs : FileSystem) : Script unit :=
  let (fs, made) := ensure_output_dir fs in
  ((made, Ok tt) ;; main fs)%script.

End Visualizer.

(* ================================================================== *)
(** ** src/data/index.py *)
(* ================================================================== *)

Module StaticFigure.

Local Open Scope Q_scope.

Definition protocols : list string :=
  ["ADD+v1"; "ADD+v2"; "ADD+v3"; "Algorand"; "Async BA";
   "PBFT"; "HotStuff+NSL"; "LibraBFT"; "SSB-Babble"]%string.

Definition ssb_babble_means : list Q :=
  [3341.91 / 1000; 3413.89 / 1000; 3576.63 / 1000;
   3742.82 / 1000; 4002.25 / 1000; 4423.41 / 1000].

Definition ssb_babble_stds : list Q :=
  [115 / 1000; 139 / 1000; 178 / 1000; 232 / 1000; 246 / 1000; 400 / 1000].

Definition f_values : list Z := [0; 1; 2; 3; 4; 5]%Z.

Definition data : list (list Q) :=
  [ [7; 7.1; 7.2; 7.3; 7.4; 7.5];
    [7; 7.1; 7.2; 7.3; 7.4; 7.5];
    [13.5; 13.7; 13.8; 14; 14.1; 14.2];
    [4.5; 4.6; 4.7; 4.8; 5; 5.8];
    [13; 13.2; 13.4; 13.6; 13.8; 12.2];
    [3.3; 3.5; 3.7; 3.9; 4.3; 5];
    [2.5; 3; 3.5; 4; 5; 25];
    [2.2; 2.5; 3.5; 3.7; 6; 6.3];
    ssb_babble_means ].

Definition std_data : list (list Q) :=
  [ [0.3; 0.3; 0.4; 0.4; 0.4; 0.4];
    [1; 1; 1; 1; 0.8; 0.8];
    [1.5; 1.5; 2; 2; 2; 2];
    [0.2; 0.2; 0.2; 0.2; 0.3; 1.5];
    [4; 4; 3.5; 3.5; 3; 3];
    [0.1; 0.1; 0.2; 0.3; 0.5; 0.8];
    [0.1; 0.1; 0.2; 0.3; 0.7; 1];
    [0.1; 0.1; 0.2; 0.2; 0.3; 0.3];
    ssb_babble_stds ].

Definition colors : list string :=
  ["#D5F5E3"; "#ABEBC6"; "#82E0AA"; "#58D68D"; "#2ECC71"; "#1D8348"]%string.

(** [a[p][f]] *)
Definition entry (a : list (list Q)) (p f : nat) : Q := nth f (nth p a []) 0.

(** [a[:, i]] *)
Definition column_of (a : list (list Q)) (i : nat) : list Q :=
  map (fun row => nth i row 0) a.

(** [x = np.arange(len(protocols))] *)
Definition x : list Q :=
  map (fun k => inject_Z (Z.of_nat k)) (seq 0 (List.length protocols)).

Definition width : Q := 0.13.

(** one [ax.bar] call draws a rectangle per position *)
Definition ax_bar (xs heights : list Q) (w : Q) (color : string)
           (yerr : list Q) (label : string) : list Bar :=
  map (fun t => mkBar (fst (fst t)) (snd (fst t)) w color (snd t) label)
      (combine (combine xs heights) yerr).

Definition format_f (f : Z) : string :=
  ("f = " ++ String (ascii_of_nat (48 + Z.to_nat f)) EmptyString)%string.

(** lines 85-88:
    [for i, f in enumerate(f_values):
         ax.bar(x + i*width - 0.35, data[:, i], width, color=colors[i],
                yerr=std_data[:, i], capsize=3, label=f'f = {f}')] *)
Definition bar_groups : list (list Bar) :=
  map (fun '(i, f) =>
         ax_bar (map (fun xp => xp + inject_Z (Z.of_nat i) * width - 0.35) x)
                (column_of data i) width (nth i colors ""%string)
                (column_of std_data i) (format_f f))
      (enumerate f_values).

Definition bars : list Bar := List.concat bar_groups.

Definition output_path : string := "updated_fig7_with_ssb_babble.png".

(** the whole script: build the figure, [plt.savefig(...)], [plt.show()] *)
Definition run : Script unit :=
  savefig output_path (BarFigure bars protocols).

End StaticFigure.

(* ================================================================== *)
(** ** Vocabulary of the properties *)
(* ================================================================== *)

(** A trial is failed when its failure flag is set to true. *)
Definition failed (r : Row) : bool :=
  match failure r with
  | Some true => true
  | _ => false
  end.

(** The rows of a table that are not failed trials; a table without a
    failure column has no failed trial. *)
Definition surviving (data : DataFrame) : list Row :=
  if has_column data "failure"
  then filter (fun r => negb (failed r)) (rows data)
  else rows data.


(** What a figure shows of the table: the points of its series, the
    filled cells of its heatmap. *)
Inductive Mark : Type :=
| ErrorBarPoint (nodes : Z) (time err : Q)
| RatioPoint (nodes : Z) (time_per_node : option Q)
| ScatterPoint (nodes : Z) (percentage time : Q)
| HeatCell (nodes : Z) (percentage mean_time : Q).

Definition errorbar_marks (eb : ErrorBar) : list Mark :=
  map (fun t => ErrorBarPoint (fst (fst t)) (snd (fst t)) (snd t))
      (combine (combine (eb_x eb) (eb_y eb)) (eb_yerr eb)).






(** The point a row contributes to an error-bar series. *)
Definition point_of (r : Row) : Mark :=
  ErrorBarPoint (nodeNum r) (meanTime r) (stdTime r).




(** The rows of [rs] plotted for Byzantine percentage [y], in plotting
    order (ascending node count). *)
Definition group_of (rs : list Row) (y : Q) : list Row :=
  sort_by_nodeNum (filter (fun r => Qeq_bool (byzantinePercentage r) y) rs).

(** The rows of [rs] that belong to network profile [p]. *)
Definition profile_rows (rs : list Row) (p : option string) : list Row :=
  filter (fun r => profile_eqb (networkProfile r) p) rs.

(** What the grid cell of profile [p] and percentage [y] shows of the
    rows [rs] of that profile: "No Data" for an empty group, otherwise the
    error-bar line of the group. *)
Definition cell_shows (rs : list Row) (p : option string) (y : Q)
           (c : GridCell) : Prop :=
  (group_of rs y = [] /\ c = NoData) \/
  (group_of rs y <> [] /\
   exists eb, c = CellPlot eb (ProfileByzantine p y) /\
              errorbar_marks eb = map point_of (group_of rs y)).

(** A table carrying the columns every chart reads. *)
Definition has_measurements (data : DataFrame) : Prop :=
  has_column data "nodeNum" = true /\
  has_column data "byzantinePercentage" = true /\
  has_column data "meanTime" = true /\
  has_column data "stdTime" = true.










(* ------------------------------------------------------------------ *)
(** *** Sample inputs *)

Module Samples.

Definition header : list string :=
  ["networkProfile"; "nodeNum"; "byzantinePercentage"; "meanTime";
   "stdTime"; "failure"].

Definition trial (profile : string) (nodes : Z) (pct time std : Q)
           (flag : option bool) : Row :=
  mkRow (Some profile) nodes pct time std None None flag None.

(** two profiles; one failed trial, one trial with an empty flag *)
Definition experiments : DataFrame :=
  mkDataFrame header
    [ trial "wan" 8 10 100 5 (Some false);
      trial "lan" 4 10 40 2 None;
      trial "lan" 4 0 30 2 (Some true);
      trial "lan" 16 10 60 3 (Some false);
      trial "lan" 4 10 50 2 (Some false);
      trial "lan" 8 0 45 1 (Some false) ].

(** the same trials as they are written by a run that records no failure
    flag *)
Definition plain_experiments : DataFrame :=
  mkDataFrame
    ["networkProfile"; "nodeNum"; "byzantinePercentage"; "meanTime"; "stdTime"]
    [ trial "wan" 8 10 100 5 None;
      trial "lan" 4 10 40 2 None;
      trial "lan" 16 10 60 3 None;
      trial "lan" 8 0 45 1 None ].

Definition plain_aggregate : FileSystem :=
  mkFS ["results"] [("results/all-experiments.csv", plain_experiments)].

(** a results directory holding only the aggregate file *)
Definition aggregate_only : FileSystem :=
  mkFS ["results"] [("results/all-experiments.csv", experiments)].

(** an individual result file that names its network by its latency
    columns instead of a profile column *)
Definition lan_file : DataFrame :=
  mkDataFrame
    ["nodeNum"; "byzantinePercentage"; "meanTime"; "stdTime"; "networkMean";
     "networkStd"]
    [ mkRow None 4 0 30 2 (Some 1) (Some 0.1) None None;
      mkRow None 8 0 45 1 (Some 1) (Some 0.1) None None ]%Q.

(** a results directory with individual files and no aggregate file *)
Definition individual_only : FileSystem :=
  mkFS ["results"] [("results/lan.csv", lan_file)].

(** an individual file with neither a profile nor a latency column *)
Definition bare_file : DataFrame :=
  mkDataFrame ["nodeNum"; "byzantinePercentage"; "meanTime"; "stdTime"]
    [ mkRow None 4 0 30 2 None None None None ].

Definition bare_only : FileSystem :=
  mkFS ["results"] [("results/lan.csv", bare_file)].

End Samples.

(* ------------------------------------------------------------------ *)
(** *** Vocabulary of the further properties *)

(** The error bar a per-percentage loop draws for percentage [y] of the
    rows [rs]: nothing for an empty group, otherwise the three plotted
    columns of the group in ascending node count. *)
Definition group_errorbar (rs : list Row) (marker : string) (label : Label)
           (y : Q) : option ErrorBar :=
  match group_of rs y with
  | [] => None
  | g => Some (mkErrorBar (map nodeNum g) (map meanTime g) (map stdTime g)
                          marker label)
  end.

(** The error-bar series of a figure. *)
Definition figure_errorbars (fig : Figure) : list ErrorBar :=
  match fig with
  | ImpactFigure series _ _ _ => series
  | CombinedFigure subplots => flat_map sp_series subplots
  | GridFigure cells =>
      flat_map (fun c => match snd c with
                         | CellPlot eb _ => [eb]
                         | NoData => []
                         end) cells
  | _ => []
  end.

(** The grid cell drawn for percentage [y] of the rows [rs] of profile [p]. *)
Definition group_cell (rs : list Row) (p : option string) (y : Q) : GridCell :=
  match group_errorbar rs "o" NoLabel y with
  | Some eb => CellPlot eb (ProfileByzantine p y)
  | None => NoData
  end.

(** Two rows report the same trial measurements. *)
Definition same_measurements (r r' : Row) : Prop :=
  nodeNum r' = nodeNum r /\
  byzantinePercentage r' = byzantinePercentage r /\
  meanTime r' = meanTime r /\
  stdTime r' = stdTime r.

Module MoreSamples.

(** a run in which every trial failed *)
Definition all_failed : DataFrame :=
  mkDataFrame Samples.header
    [ Samples.trial "lan" 4 10 40 2 (Some true);
      Samples.trial "wan" 8 10 100 5 (Some true) ].

Definition all_failed_fs : FileSystem :=
  mkFS ["results"] [("results/all-experiments.csv", all_failed)].

(** the same table with the latency columns of its network *)
Definition all_failed_with_delay : DataFrame :=
  mkDataFrame (Samples.header ++ ["networkMean"; "networkStd"]) (rows all_failed).



End MoreSamples.

(** What a chart function emits when it finds no aggregate file: its
    banner, the loader's warning, the notice, and a normal return. *)
Definition skipped_run (banner : string) : Script unit :=
  ([Print banner;
    Print "Warning: File not found: results/all-experiments.csv";
    Print "No experiment data found!"], Ok tt).




Module EdgeSamples.







End EdgeSamples.



(* ------------------------------------------------------------------ *)
(** *** The failure filter from pandas 3 on

    [Visualizer.filter_out_failed] follows pandas up to 2.x, where
    [fillna(False)] turns the column of flags into booleans.  From pandas
    3 on, the filled column of a table with an empty flag cell keeps dtype
    object; [~] then negates its Python booleans as integers, and
    indexing the table with integers raises [KeyError].  A column without
    an empty cell is boolean from the start and is filtered as before. *)



(* ------------------------------------------------------------------ *)
(** *** The profile column as [pd.read_csv] types it

    [Row] keeps a profile as the text of its CSV cell, which is what
    [pd.read_csv] does as soon as one cell of the column is text.  A
    column whose cells are all numerals is typed as numbers instead, and
    [sorted] then orders the profiles by value. *)




(** An event that the run can emit before the normalized scaling plot
    completes: no completion message of that plot, no banner of the three
    charts that follow it, and no figure other than a per-profile or a
    combined chart. *)
Definition before_3d_chart (ev : event) : bool :=
  match ev with
  | Print msg =>
      negb (existsb (String.eqb msg)
              ["✓ Normalized scaling plot generated";
               "Generating 3D visualization...";
               "Generating heatmaps...";
               "Generating comprehensive visualization..."])
  | MakeDirs _ => true
  | SaveFig _ (ImpactFigure _ _ _ _) => true
  | SaveFig _ (CombinedFigure _) => true
  | SaveFig _ _ => false
  end.

(* ================================================================== *)
(** ** General facts about the monads and the sequence operations *)
(* ================================================================== *)

Lemma rbind_Ok {A B} (m : result A) (k : A -> result B) (b : B) :
  rbind m k = Ok b -> exists a, m = Ok a /\ k a = Ok b.
Proof.
  destruct m as [a|e]; simpl; intros H.
  - exists a. split; [reflexivity | exact H].
  - discriminate H.
Qed.

(** split [H : (x <- m ;; k) = Ok b] into the two successful halves *)
Ltac bind_inv H :=
  let a := fresh "v" in
  let Ha := fresh "E" in
  apply rbind_Ok in H; destruct H as (a & Ha & H).

Tactic Notation "bind_split" hyp(H) "as" ident(a) ident(Ha) :=
  apply rbind_Ok in H; destruct H as (a & Ha & H).

Lemma for_collect_In {A B} (body : A -> result (option B)) (l : list A) :
  forall out, for_collect l body = Ok out ->
  forall b, In b out <-> exists a, In a l /\ body a = Ok (Some b).
Proof.
  induction l as [|a l IH]; simpl; intros out H b.
  - inversion H; subst. simpl. split; [tauto | intros (a & [] & _)].
  - destruct (body a) as [o|e] eqn:Ea; [|discriminate].
    destruct (for_collect l body) as [bs|e] eqn:El; [|discriminate].
    inversion H; subst; clear H.
    specialize (IH bs eq_refl b).
    destruct o as [b0|]; simpl; rewrite IH; split.
    + intros [-> | (a' & Hin & Hb)]; eauto.
    + intros (a' & [-> | Hin] & Hb); [left; congruence | right; eauto].
    + intros (a' & Hin & Hb); eauto.
    + intros (a' & [-> | Hin] & Hb); [congruence | eauto].
Qed.


Lemma for_each_In {A B} (body : A -> result B) (l : list A) :
  forall out, for_each l body = Ok out ->
  forall b, In b out <-> exists a, In a l /\ body a = Ok b.
Proof.
  induction l as [|a l IH]; simpl; intros out H b.
  - inversion H; subst. simpl. split; [tauto | intros (a & [] & _)].
  - destruct (body a) as [b0|e] eqn:Ea; [|discriminate].
    destruct (for_each l body) as [bs|e] eqn:El; [|discriminate].
    inversion H; subst; clear H.
    specialize (IH bs eq_refl b). simpl. rewrite IH. split.
    + intros [-> | (a' & Hin & Hb)]; eauto.
    + intros (a' & [-> | Hin] & Hb); [left; congruence | right; eauto].
Qed.


Lemma enumerate_In {A} (l : list A) (i : nat) (a : A) :
  In (i, a) (enumerate l) -> In a l.
Proof. unfold enumerate. apply in_combine_r. Qed.


Lemma combine_map {A B C} (f : A -> B) (g : A -> C) (l : list A) :
  combine (map f l) (map g l) = map (fun a => (f a, g a)) l.
Proof. induction l; simpl; congruence. Qed.

Section SortedFacts.
Context {A : Type}.
Variable leb : A -> A -> bool.

Lemma insert_sorted_perm (x : A) (l : list A) :
  Permutation (insert_sorted leb x l) (x :: l).
Proof.
  induction l as [|y l IH]; simpl.
  - apply Permutation_refl.
  - destruct (leb x y).
    + apply Permutation_refl.
    + eapply perm_trans; [apply perm_skip, IH | apply perm_swap].
Qed.

Lemma sorted_perm (l : list A) : Permutation (sorted leb l) l.
Proof.
  induction l as [|x l IH]; simpl.
  - apply perm_nil.
  - eapply perm_trans; [apply insert_sorted_perm | apply perm_skip, IH].
Qed.

Lemma In_sorted (l : list A) (x : A) : In x (sorted leb l) <-> In x l.
Proof.
  split; apply Permutation_in;
    [apply sorted_perm | apply Permutation_sym, sorted_perm].
Qed.


End SortedFacts.

Section UniqueFacts.
Context {A : Type}.
Variable eqb : A -> A -> bool.

Lemma unique_sound (l : list A) (x : A) : In x (unique eqb l) -> In x l.
Proof.
  induction l as [|a l IH]; simpl; [tauto|].
  intros [-> | H]; [now left|].
  apply filter_In in H. right. apply IH, H.
Qed.

Hypothesis eqb_refl : forall x, eqb x x = true.
Hypothesis eqb_trans :
  forall x y z, eqb x y = true -> eqb y z = true -> eqb x z = true.

(** every value of the column is represented among the distinct ones *)
Lemma unique_complete (l : list A) (x : A) :
  In x l -> exists y, In y (unique eqb l) /\ eqb y x = true.
Proof.
  induction l as [|a l IH]; simpl; [tauto|].
  intros [-> | H].
  - exists x. split; [now left | apply eqb_refl].
  - destruct (IH H) as (y & Hy & Hyx).
    destruct (eqb a y) eqn:Eay.
    + exists a. split; [now left | eapply eqb_trans; eauto].
    + exists y. split; [|exact Hyx].
      right. apply filter_In. split; [exact Hy | now rewrite Eay].
Qed.
End UniqueFacts.

Lemma column_Ok {A} (df : DataFrame) (name : string) (cell : Row -> A) l :
  column df name cell = Ok l ->
  has_column df name = true /\ l = map cell (rows df).
Proof.
  unfold column. destruct (has_column df name); [|discriminate].
  intros H. inversion H. auto.
Qed.

Lemma column_present {A} (df : DataFrame) (name : string) (cell : Row -> A) :
  has_column df name = true -> column df name cell = Ok (map cell (rows df)).
Proof. unfold column. now intros ->. Qed.

(* ================================================================== *)
(** ** Facts about the table operations of the visualizer *)
(* ================================================================== *)

Import Visualizer.

Lemma filter_out_failed_rows (data : DataFrame) :
  rows (filter_out_failed data) = surviving data.
Proof.
  unfold filter_out_failed, surviving.
  destruct (has_column data "failure"); [|reflexivity].
  simpl. apply filter_ext. intros r. unfold failed.
  destruct (failure r) as [[|]|]; reflexivity.
Qed.

Lemma filter_out_failed_columns (data : DataFrame) :
  columns (filter_out_failed data) = columns data.
Proof.
  unfold filter_out_failed. destruct (has_column data "failure"); reflexivity.
Qed.

Lemma has_column_filter_out_failed (data : DataFrame) (c : string) :
  has_column (filter_out_failed data) c = has_column data c.
Proof. unfold has_column. now rewrite filter_out_failed_columns. Qed.


Lemma percentage_data_Ok (frame : DataFrame) (y : Q) (pd : DataFrame) :
  percentage_data frame y = Ok pd ->
  columns pd = columns frame /\
  rows pd = sort_by_nodeNum
              (filter (fun r => Qeq_bool (byzantinePercentage r) y) (rows frame)).
Proof.
  unfold percentage_data. intros H.
  bind_inv H. bind_inv H. inversion H; subst. simpl. auto.
Qed.



Lemma profile_data_of_Ok (all_data : DataFrame) (p : option string) pd :
  profile_data_of all_data p = Ok pd ->
  columns pd = columns all_data /\
  rows pd = filter (fun r => profile_eqb (networkProfile r) p) (rows all_data).
Proof.
  unfold profile_data_of. intros H. bind_inv H. inversion H; subst. simpl. auto.
Qed.

Lemma errorbar_Ok (pd : DataFrame) (marker : string) (label : Label) eb :
  errorbar pd marker label = Ok eb ->
  errorbar_marks eb = map point_of (rows pd) /\ eb_label eb = label.
Proof.
  unfold errorbar. intros H.
  bind_inv H. bind_inv H. bind_inv H. inversion H; subst; clear H.
  apply column_Ok in E, E0, E1.
  destruct E as [_ ->], E0 as [_ ->], E1 as [_ ->].
  unfold errorbar_marks. simpl. split; [|reflexivity].
  rewrite combine_map, combine_map, map_map. reflexivity.
Qed.


Lemma len_zero (df : DataFrame) : (len df =? 0)%nat = true <-> rows df = [].
Proof.
  unfold len. rewrite Nat.eqb_eq. destruct (rows df); simpl; split; congruence.
Qed.



Lemma for_each_all_ok {A B} (body : A -> result B) (l : list A) :
  forall out, for_each l body = Ok out ->
  forall a, In a l -> exists b, body a = Ok b.
Proof.
  induction l as [|a0 l IH]; simpl; intros out H a Ha; [contradiction|].
  destruct (body a0) as [o|e] eqn:Ea; [|discriminate].
  destruct (for_each l body) as [bs|e] eqn:El; [|discriminate].
  destruct Ha as [<- | Ha]; eauto.
Qed.

Lemma group_of_In (rs : list Row) (y : Q) (r : Row) :
  In r (group_of rs y) <->
  In r rs /\ Qeq_bool (byzantinePercentage r) y = true.
Proof. unfold group_of, sort_by_nodeNum. rewrite In_sorted. apply filter_In. Qed.

Lemma group_of_nonempty (rs : list Row) (y : Q) (r : Row) :
  In r rs -> Qeq_bool (byzantinePercentage r) y = true -> group_of rs y <> [].
Proof.
  intros Hr Hy Hnil.
  assert (H : In r (group_of rs y)) by (apply group_of_In; auto).
  rewrite Hnil in H. exact H.
Qed.



Lemma Qeq_bool_refl' (x : Q) : Qeq_bool x x = true.
Proof. apply Qeq_bool_iff. reflexivity. Qed.

Lemma sorted_percentages_sound (cells : list Q) (y : Q) :
  In y (sorted_percentages cells) -> In y cells.
Proof.
  unfold sorted_percentages. rewrite In_sorted. apply unique_sound.
Qed.

Lemma sorted_percentages_complete (cells : list Q) (x : Q) :
  In x cells -> exists y, In y (sorted_percentages cells) /\ Qeq_bool y x = true.
Proof.
  intros H. unfold sorted_percentages.
  destruct (unique_complete Qeq_bool Qeq_bool_refl' Qeq_bool_trans cells x H)
    as (y & Hy & Hyx).
  exists y. split; [now apply In_sorted | exact Hyx].
Qed.




(** *** The error-bar charts *)

Lemma byzantine_impact_figure_Ok (data : DataFrame) (name : string) (fig : Figure) :
  byzantine_impact_figure data name = Ok fig ->
  exists series mean_delay std_delay,
    fig = ImpactFigure series (PyStr.split_head "_" name) mean_delay std_delay /\
    impact_series (filter_out_failed data)
      (sorted_percentages (map byzantinePercentage (surviving data))) = Ok series.
Proof.
  unfold byzantine_impact_figure. intros H.
  bind_inv H. apply column_Ok in E. destruct E as [_ ->].
  rewrite filter_out_failed_rows in H.
  bind_inv H. bind_inv H. bind_inv H. bind_inv H. bind_inv H.
  inversion H; subst. eauto.
Qed.



Lemma combined_figure_Ok (data : DataFrame) (fig : Figure) :
  combined_figure data = Ok fig ->
  exists profiles subplots,
    fig = CombinedFigure subplots /\
    sorted_profiles (map networkProfile (surviving data)) = Ok profiles /\
    (forall sp, In sp subplots ->
       exists i, In (i, sp_profile sp) (enumerate profiles) /\
         subplot_series
           (mkDataFrame (columns data) (profile_rows (surviving data) (sp_profile sp)))
           (i =? 0)%nat
           (sorted_percentages (map byzantinePercentage (surviving data)))
         = Ok (sp_series sp)) /\
    (forall i p, In (i, p) (enumerate profiles) ->
       exists sp, In sp subplots /\ sp_profile sp = p).
Proof.
  unfold combined_figure. intros H.
  bind_split H as cells Ec. apply column_Ok in Ec. destruct Ec as [_ ->].
  bind_split H as profiles Ep.
  bind_split H as pcts Eq. apply column_Ok in Eq. destruct Eq as [_ ->].
  rewrite filter_out_failed_rows in *.
  destruct (List.length profiles =? 0)%nat; [discriminate|].
  bind_split H as subplots Es. inversion H; subst; clear H.
  exists profiles, subplots. split; [reflexivity|]. split; [assumption|].
  assert (Hbody : forall i p sp,
    (profile_data <- profile_data_of (filter_out_failed data) p ;;
     series <- subplot_series profile_data (i =? 0)%nat
                 (sorted_percentages (map byzantinePercentage (surviving data))) ;;
     mean_delay <- delay_of profile_data "networkMean" networkMean ;;
     std_delay <- delay_of profile_data "networkStd" networkStd ;;
     _ <- column (filter_out_failed data) "meanTime" meanTime ;;
     _ <- column (filter_out_failed data) "nodeNum" nodeNum ;;
     Ok (mkSubplot p series mean_delay std_delay))%result = Ok sp ->
    sp_profile sp = p /\
    subplot_series
      (mkDataFrame (columns data) (profile_rows (surviving data) p))
      (i =? 0)%nat (sorted_percentages (map byzantinePercentage (surviving data)))
    = Ok (sp_series sp)).
  { intros i p sp Hb.
    bind_split Hb as pd Epd. apply profile_data_of_Ok in Epd. destruct Epd as [Hc Hr].
    bind_split Hb as series Eser. bind_split Hb as md Emd. bind_split Hb as sd Esd.
    bind_split Hb as c1 Ec1. bind_split Hb as c2 Ec2.
    inversion Hb; subst; clear Hb. simpl.
    rewrite filter_out_failed_rows, filter_out_failed_columns in *.
    destruct pd as [c rs]. simpl in *. subst. split; [reflexivity | exact Eser]. }
  split.
  - intros sp Hsp. apply (for_each_In _ _ _ Es) in Hsp.
    destruct Hsp as ([i p] & Hin & Hb).
    apply Hbody in Hb. destruct Hb as [Hp Hs]. subst p. eauto.
  - intros i p Hin.
    destruct (for_each_all_ok _ _ _ Es _ Hin) as (sp & Hb).
    exists sp. split.
    + apply (for_each_In _ _ _ Es). exists (i, p). auto.
    + apply Hbody in Hb. tauto.
Qed.


(** *** The 3D scatter and the normalized scaling lines *)





(** *** The comprehensive grid *)

Lemma grid_cell_body (all_data frame : DataFrame) (i j : nat)
      (p : option string) (y : Q) (c : nat * nat * GridCell) :
  (percentage_data <- percentage_data frame y ;;
   if (len percentage_data =? 0)%nat then Ok (i, j, NoData)
   else
     eb <- errorbar percentage_data "o" NoLabel ;;
     _ <- column all_data "meanTime" meanTime ;;
     Ok (i, j, CellPlot eb (ProfileByzantine p y)))%result = Ok c ->
  fst c = (i, j) /\ cell_shows (rows frame) p y (snd c).
Proof.
  intros H. bind_split H as pd Epd.
  apply percentage_data_Ok in Epd. destruct Epd as [_ Epd].
  fold (group_of (rows frame) y) in Epd.
  destruct (len pd =? 0)%nat eqn:El.
  - inversion H; subst; clear H. simpl. split; [reflexivity|].
    left. apply len_zero in El. split; congruence.
  - bind_split H as eb Eeb. bind_split H as c1 Ec1.
    inversion H; subst; clear H. simpl. split; [reflexivity|].
    right. apply errorbar_Ok in Eeb. destruct Eeb as [Hm _].
    rewrite Epd in Hm. split.
    + intros Hnil. rewrite <- Epd in Hnil. apply len_zero in Hnil. congruence.
    + eauto.
Qed.

Lemma grid_row_spec (all_data frame : DataFrame) (i : nat) (p : option string)
      (pcts : list Q) (cells : list (nat * nat * GridCell)) :
  grid_row all_data frame i p pcts = Ok cells ->
  (forall c, In c cells ->
     exists j y, In (j, y) (enumerate pcts) /\ fst c = (i, j) /\
                 cell_shows (rows frame) p y (snd c)) /\
  (forall j y, In (j, y) (enumerate pcts) ->
     exists c, In c cells /\ fst c = (i, j) /\
               cell_shows (rows frame) p y (snd c)).
Proof.
  unfold grid_row. intros H. split.
  - intros c Hc. apply (for_each_In _ _ _ H) in Hc.
    destruct Hc as ([j y] & Hin & Hb).
    apply grid_cell_body in Hb. exists j, y. tauto.
  - intros j y Hin.
    destruct (for_each_all_ok _ _ _ H _ Hin) as (c & Hb).
    exists c. split.
    + apply (for_each_In _ _ _ H). exists (j, y). auto.
    + apply grid_cell_body in Hb. exact Hb.
Qed.

Lemma comprehensive_figure_Ok (data : DataFrame) (fig : Figure) :
  comprehensive_figure data = Ok fig ->
  let pcts := sorted_percentages (map byzantinePercentage (surviving data)) in
  exists profiles cells,
    fig = GridFigure cells /\
    sorted_profiles (map networkProfile (surviving data)) = Ok profiles /\
    (forall c, In c cells ->
       exists i p j y,
         In (i, p) (enumerate profiles) /\ In (j, y) (enumerate pcts) /\
         fst c = (i, j) /\
         cell_shows (profile_rows (surviving data) p) p y (snd c)) /\
    (forall i p j y,
       In (i, p) (enumerate profiles) -> In (j, y) (enumerate pcts) ->
       exists c, In c cells /\ fst c = (i, j) /\
                 cell_shows (profile_rows (surviving data) p) p y (snd c)).
Proof.
  intros H pcts. unfold comprehensive_figure in H.
  bind_split H as cells0 Ec. apply column_Ok in Ec. destruct Ec as [_ ->].
  bind_split H as profiles Ep.
  bind_split H as pcts0 Eq. apply column_Ok in Eq. destruct Eq as [_ ->].
  rewrite filter_out_failed_rows in *. fold pcts in H.
  destruct ((List.length profiles =? 0)%nat || (List.length pcts =? 0)%nat);
    [discriminate|].
  bind_split H as grid Eg. inversion H; subst; clear H.
  exists profiles, (List.concat grid).
  split; [reflexivity|]. split; [assumption|]. split.
  - intros c Hc. apply in_concat in Hc. destruct Hc as (row & Hrow & Hc).
    apply (for_each_In _ _ _ Eg) in Hrow. destruct Hrow as ([i p] & Hin & Hb).
    bind_split Hb as pd Epd. apply profile_data_of_Ok in Epd.
    destruct Epd as [_ Hr]. rewrite filter_out_failed_rows in Hr.
    apply grid_row_spec in Hb. destruct Hb as [Hs _].
    destruct (Hs c Hc) as (j & y & Hj & Hf & Hshow).
    exists i, p, j, y. rewrite Hr in Hshow. auto.
  - intros i p j y Hi Hj.
    destruct (for_each_all_ok _ _ _ Eg _ Hi) as (row & Hb).
    assert (Hrow : In row grid)
      by (apply (for_each_In _ _ _ Eg); exists (i, p); auto).
    bind_split Hb as pd Epd. apply profile_data_of_Ok in Epd.
    destruct Epd as [_ Hr]. rewrite filter_out_failed_rows in Hr.
    apply grid_row_spec in Hb. destruct Hb as [_ Hc].
    destruct (Hc j y Hj) as (c & Hin & Hf & Hshow).
    exists c. rewrite Hr in Hshow. split; [|auto].
    apply in_concat. eauto.
Qed.


(** *** The heatmap pivot *)

Lemma key_eqb_refl (k : Z * Q) : key_eqb k k = true.
Proof. unfold key_eqb. now rewrite Z.eqb_refl, Qeq_bool_refl'. Qed.

Lemma key_eqb_trans (a b c : Z * Q) :
  key_eqb a b = true -> key_eqb b c = true -> key_eqb a c = true.
Proof.
  unfold key_eqb. rewrite !andb_true_iff, !Z.eqb_eq.
  intros [H1 H2] [H3 H4]. split; [congruence | eapply Qeq_bool_trans; eauto].
Qed.

Lemma key_eqb_sym (a b : Z * Q) : key_eqb a b = key_eqb b a.
Proof. unfold key_eqb. now rewrite Z.eqb_sym, Qeq_bool_comm. Qed.

(** rows are grouped alike under two labels that denote the same key *)
Lemma key_eqb_congr (k k' a : Z * Q) :
  key_eqb k' k = true -> key_eqb a k' = key_eqb a k.
Proof.
  intros H. destruct (key_eqb a k') eqn:E1, (key_eqb a k) eqn:E2; try reflexivity.
  - rewrite (key_eqb_trans _ _ _ E1 H) in E2. discriminate.
  - rewrite key_eqb_sym in H. rewrite (key_eqb_trans _ _ _ E2 H) in E1. discriminate.
Qed.

Lemma filter_none {A} (f : A -> bool) (l : list A) :
  (forall a, In a l -> f a = false) -> filter f l = [].
Proof.
  induction l as [|a l IH]; simpl; intros H; [reflexivity|].
  rewrite (H a (or_introl eq_refl)). apply IH. intros b Hb. apply H. now right.
Qed.

Lemma filter_filter {A} (f g : A -> bool) (l : list A) :
  filter f (filter g l) = filter (fun a => g a && f a) l.
Proof.
  induction l as [|a l IH]; simpl; [reflexivity|].
  destruct (g a); simpl; [destruct (f a)|]; now rewrite IH.
Qed.


Lemma find_in_groups (F : Z * Q -> option Q) (k : Z * Q) (U : list (Z * Q)) :
  find (fun e => key_eqb (fst e) k) (map (fun k' => (k', F k')) U)
  = option_map (fun k' => (k', F k')) (find (fun k' => key_eqb k' k) U).
Proof.
  induction U as [|a U IH]; simpl; [reflexivity|].
  destruct (key_eqb a k); [reflexivity | exact IH].
Qed.

(** Looking a key up among the grouped means gives the mean over exactly
    the rows carrying that key (NaN when there is none). *)
Lemma lookup_group_mean (l : list Row) (k : Z * Q) :
  lookup_group k (groupby_mean l)
  = mean (map meanTime (filter (fun r => key_eqb (group_key r) k) l)).
Proof.
  unfold lookup_group, groupby_mean. rewrite find_in_groups.
  destruct (find (fun k' => key_eqb k' k) (unique key_eqb (map group_key l)))
    as [k'|] eqn:Ef; simpl.
  - apply find_some in Ef. destruct Ef as [_ Hk].
    do 2 f_equal. apply filter_ext. intros r. now apply key_eqb_congr.
  - rewrite filter_none; [reflexivity|].
    intros r Hr. destruct (key_eqb (group_key r) k) eqn:Ek; [|reflexivity].
    destruct (unique_complete key_eqb key_eqb_refl key_eqb_trans
                (map group_key l) (group_key r) (in_map _ _ _ Hr))
      as (k' & Hin & Hk').
    pose proof (find_none _ _ Ef k' Hin) as Hn. simpl in Hn.
    rewrite (key_eqb_trans _ _ _ Hk' Ek) in Hn. discriminate.
Qed.

Lemma index_of_Some {A} (same : A -> bool) (l : list A) (i : nat) :
  index_of same l = Some i ->
  exists a, In a l /\ same a = true /\
            forall B (f : A -> B) (d : B), nth i (map f l) d = f a.
Proof.
  revert i. induction l as [|a l IH]; simpl; intros i H; [discriminate|].
  destruct (same a) eqn:Ea.
  - inversion H; subst. exists a. auto.
  - destruct (index_of same l) as [i'|]; [|discriminate].
    inversion H; subst. destruct (IH i' eq_refl) as (b & Hb & Hs & Hn).
    exists b. auto.
Qed.

Lemma index_of_None {A} (same : A -> bool) (l : list A) :
  index_of same l = None -> forall a, In a l -> same a = false.
Proof.
  induction l as [|a l IH]; simpl; intros H b Hb; [contradiction|].
  destruct (same a) eqn:Ea; [discriminate|].
  destruct (index_of same l); [discriminate|].
  destruct Hb as [<- | Hb]; auto.
Qed.

Lemma mean_none_of_no_rows (f : Row -> bool) (l : list Row) :
  (forall r, In r l -> f r = false) -> mean (map meanTime (filter f l)) = None.
Proof. intros H. now rewrite filter_none. Qed.

(** The pivot cell labelled (x, y) is the mean of [meanTime] over exactly
    the rows of the pivoted frame with node count x and percentage y. *)
Lemma pivot_table_at (df : DataFrame) (pv : Pivot) (x : Z) (y : Q) :
  pivot_table df = Ok pv ->
  pivot_at pv x y
  = mean (map meanTime
            (filter (fun r => key_eqb (group_key r) (x, y)) (rows df))).
Proof.
  unfold pivot_table. intros H.
  bind_split H as xs Ex. apply column_Ok in Ex. destruct Ex as [_ ->].
  bind_split H as ys Ey. apply column_Ok in Ey. destruct Ey as [_ ->].
  bind_split H as ts Et. inversion H; subst; clear H.
  unfold pivot_at. simpl.
  destruct (index_of (Z.eqb x) _) as [i|] eqn:Ei.
  - apply index_of_Some in Ei. destruct Ei as (a & _ & Ha & Hnth).
    apply Z.eqb_eq in Ha. subst a.
    destruct (index_of (Qeq_bool y) _) as [j|] eqn:Ej.
    + apply index_of_Some in Ej. destruct Ej as (b & _ & Hb & Hnth').
      rewrite Hnth, Hnth', lookup_group_mean.
      do 2 f_equal. apply filter_ext. intros r. apply key_eqb_congr.
      unfold key_eqb. simpl. rewrite Z.eqb_refl. simpl.
      now rewrite Qeq_bool_comm.
    + symmetry. apply mean_none_of_no_rows. intros r Hr.
      unfold key_eqb, group_key. simpl.
      destruct (Qeq_bool (byzantinePercentage r) y) eqn:Ey;
        [|apply andb_false_r].
      exfalso.
      destruct (sorted_percentages_complete (map byzantinePercentage (rows df))
                  (byzantinePercentage r) (in_map _ _ _ Hr)) as (b & Hb & Hbr).
      pose proof (index_of_None _ _ Ej b Hb) as Hn. simpl in Hn.
      rewrite Qeq_bool_comm in Hn.
      rewrite (Qeq_bool_trans _ _ _ Hbr Ey) in Hn. discriminate.
  - symmetry. apply mean_none_of_no_rows. intros r Hr.
    unfold key_eqb, group_key. simpl.
    destruct (nodeNum r =? x)%Z eqn:En; [|reflexivity].
    exfalso. apply Z.eqb_eq in En.
    destruct (unique_complete Z.eqb Z.eqb_refl
                (fun a b c H1 H2 => proj2 (Z.eqb_eq a c)
                   (eq_trans (proj1 (Z.eqb_eq a b) H1) (proj1 (Z.eqb_eq b c) H2)))
                (map nodeNum (rows df)) (nodeNum r) (in_map _ _ _ Hr))
      as (a & Ha & Har).
    apply Z.eqb_eq in Har.
    assert (Hin : In a (sorted Z.leb (unique Z.eqb (map nodeNum (rows df)))))
      by now apply In_sorted.
    pose proof (index_of_None _ _ Ei a Hin) as Hn. simpl in Hn.
    rewrite Z.eqb_neq in Hn. congruence.
Qed.





(* ================================================================== *)
(** ** Failed trials and the aggregated views *)
(* ================================================================== *)








(** the two "lan" trials with 4 nodes and 10% that did not fail took 40
    and 50: their cell holds 90/2; the failed trial (4 nodes, 0%) leaves
    its cell empty *)
Example heatmap_cells_of_sample :
  exists pivot md sd,
    heatmap_figure (filter_out_failed Samples.experiments) (Some "lan")
    = Ok (HeatmapFigure pivot (Some "lan") md sd) /\
    pivot_at pivot 4 10 = Some (90 # 2) /\ pivot_at pivot 4 0 = None.
Proof.
  do 3 eexists. split; [vm_compute; reflexivity|]. split; reflexivity.
Qed.

(* ================================================================== *)
(** ** The static figure (src/data/index.py) *)
(* ================================================================== *)

Lemma Q_same (a b : Q) :
  (Qnum a =? Qnum b)%Z && (Qden a =? Qden b)%positive = true -> a = b.
Proof.
  destruct a as [n d], b as [n' d']. simpl.
  rewrite andb_true_iff, Z.eqb_eq, Pos.eqb_eq. intros [-> ->]. reflexivity.
Qed.

Lemma fig7_bars_checked :
  forallb (fun p =>
    forallb (fun f =>
      match nth_error StaticFigure.bars (f * 9 + p) with
      | Some b =>
          let e := StaticFigure.entry StaticFigure.std_data p f in
          let h := StaticFigure.entry StaticFigure.data p f in
          ((Qnum (bar_yerr b) =? Qnum e)%Z && (Qden (bar_yerr b) =? Qden e)%positive)
          && ((Qnum (bar_height b) =? Qnum h)%Z
              && (Qden (bar_height b) =? Qden h)%positive)
          && Qle_bool 0 (bar_yerr b)
      | None => false
      end) (seq 0 6)) (seq 0 9) = true.
Proof. vm_compute. reflexivity. Qed.

(** C5. On the embedded arrays (9 protocols by 6 fault counts) the figure
    has exactly 54 bars; the bar of protocol p in the group of fault count
    f has height data[p][f] and error-bar height std_data[p][f], which is
    non-negative. *)
Theorem fig7_has_54_bars_with_given_error_bars (p f : nat) :
  (p < List.length StaticFigure.protocols)%nat ->
  (f < List.length StaticFigure.f_values)%nat ->
  List.length StaticFigure.bars = 54%nat /\
  List.length StaticFigure.protocols = 9%nat /\
  List.length StaticFigure.f_values = 6%nat /\
  StaticFigure.run
  = ([SaveFig StaticFigure.output_path
        (BarFigure StaticFigure.bars StaticFigure.protocols)], Ok tt) /\
  exists b,
    nth_error StaticFigure.bars (f * 9 + p) = Some b /\
    bar_yerr b = StaticFigure.entry StaticFigure.std_data p f /\
    bar_height b = StaticFigure.entry StaticFigure.data p f /\
    (0 <= bar_yerr b)%Q.
Proof.
  intros Hp Hf.
  change (List.length StaticFigure.protocols) with 9%nat in *.
  change (List.length StaticFigure.f_values) with 6%nat in *.
  repeat (split; [reflexivity|]).
  pose proof fig7_bars_checked as H.
  rewrite forallb_forall in H. specialize (H p).
  rewrite in_seq in H. specialize (H ltac:(lia)).
  rewrite forallb_forall in H. specialize (H f).
  rewrite in_seq in H. specialize (H ltac:(lia)).
  destruct (nth_error StaticFigure.bars (f * 9 + p)) as [b|]; [|discriminate].
  cbv zeta in H.
  apply andb_true_iff in H. destruct H as [H H3].
  apply andb_true_iff in H. destruct H as [H1 H2].
  exists b. split; [reflexivity|].
  split; [now apply Q_same|].
  split; [now apply Q_same | now apply Qle_bool_iff].
Qed.

Lemma fig7_has_54_bars_with_given_error_bars_witness :
  List.length StaticFigure.bars = 54%nat /\
  exists b,
    nth_error StaticFigure.bars (5 * 9 + 8) = Some b /\
    bar_yerr b = StaticFigure.entry StaticFigure.std_data 8 5 /\
    (0 <= bar_yerr b)%Q.
Proof.
  destruct (fig7_has_54_bars_with_given_error_bars 8 5)
    as (Hlen & _ & _ & _ & b & Hb & Herr & _ & Hpos).
  - simpl. lia.
  - simpl. lia.
  - split; [exact Hlen|]. exists b. auto.
Defined.

(* ================================================================== *)
(** ** The data loader *)
(* ================================================================== *)

Lemma read_csv_exists (fs : FileSystem) (path : string) (table : DataFrame) :
  read_csv fs path = Ok table -> os_path_exists fs path = true.
Proof.
  unfold read_csv, os_path_exists. intros H.
  destruct (find _ (fs_files fs)) as [e|] eqn:Ef; [|discriminate].
  apply find_some in Ef. destruct Ef as [Hin He].
  apply orb_true_iff. right. apply existsb_exists. eauto.
Qed.

(** C7. [load_data] returns the parsed table when the file exists in the
    results directory, and otherwise prints a warning and returns [None];
    it does not raise for a missing file. *)
Theorem load_data_returns_table_or_none (fs : FileSystem) (filename : string) :
  let filepath := PyStr.path_join RESULTS_DIR filename in
  (forall table, read_csv fs filepath = Ok table ->
     load_data fs filename = ([], Ok (Some table))) /\
  (os_path_exists fs filepath = false ->
     load_data fs filename
     = ([Print ("Warning: File not found: " ++ filepath)], Ok None)).
Proof.
  intros filepath. unfold load_data. fold filepath. split.
  - intros table H. rewrite (read_csv_exists _ _ _ H). simpl.
    unfold lift, sbind, sret. rewrite H. reflexivity.
  - intros H. rewrite H. reflexivity.
Qed.

Lemma load_data_returns_table_or_none_witness :
  load_data Samples.aggregate_only "all-experiments.csv"
  = ([], Ok (Some Samples.experiments)) /\
  load_data Samples.aggregate_only "lan.csv"
  = ([Print "Warning: File not found: results/lan.csv"], Ok None).
Proof.
  split.
  - apply (proj1 (load_data_returns_table_or_none
                    Samples.aggregate_only "all-experiments.csv")).
    reflexivity.
  - apply (proj2 (load_data_returns_table_or_none Samples.aggregate_only "lan.csv")).
    reflexivity.
Defined.

(* ================================================================== *)
(** ** Charts that stop with an exception *)
(* ================================================================== *)

(** The scaling plot can only be completed for a table that already has a
    [time_per_node] column: line 290 adds the column to the per-percentage
    copy, line 307 reads it from [profile_data]. *)
Lemma normalized_scaling_needs_column (data : DataFrame) (fig : Figure) :
  normalized_scaling_figure data = Ok fig ->
  has_column data "time_per_node" = true.
Proof.
  unfold normalized_scaling_figure. intros H.
  bind_split H as pcts Eq. bind_split H as fastest Ef.
  bind_split H as pd Epd. bind_split H as lines El.
  bind_split H as c1 Ec1. bind_split H as tpn Et.
  apply profile_data_of_Ok in Epd. destruct Epd as [Hc _].
  apply column_Ok in Et. destruct Et as [Ht _].
  unfold has_column in *. rewrite Hc, filter_out_failed_columns in Ht. exact Ht.
Qed.

Lemma normalized_scaling_never_saves (fs : FileSystem) (table : DataFrame) :
  load_data fs "all-experiments.csv" = ([], Ok (Some table)) ->
  has_column table "time_per_node" = false ->
  exists e, create_normalized_scaling_plot fs
            = ([Print "Generating normalized scaling plot..."], Raise e).
Proof.
  intros Hload Hcol. unfold create_normalized_scaling_plot.
  unfold print at 1. unfold sbind at 1. rewrite Hload.
  destruct (normalized_scaling_figure table) as [fig|e] eqn:Ef.
  - apply normalized_scaling_needs_column in Ef. congruence.
  - exists e. unfold sbind, lift. rewrite Ef. reflexivity.
Qed.

(** C2 (defect in the code). "Each chart either produces a file or is
    skipped with a message" fails for the normalized scaling plot: on an
    ordinary aggregate table it prints its banner and then raises
    [KeyError('time_per_node')], writing no file and no skip message; the
    exception ends [main], so the 3D, heatmap and comprehensive charts are
    not produced either. *)
Theorem normalized_scaling_plot_raises_key_error :
  create_normalized_scaling_plot Samples.plain_aggregate
  = ([Print "Generating normalized scaling plot..."],
     Raise (KeyError "time_per_node")) /\
  outcome (run Samples.plain_aggregate) = Raise (KeyError "time_per_node") /\
  saved_paths (events (run Samples.plain_aggregate))
  = ["visualizations/wan_byzantine_impact.png";
     "visualizations/lan_byzantine_impact.png";
     "visualizations/combined_network_profiles.png"].
Proof. repeat split; vm_compute; reflexivity. Qed.

(** A file is tagged with the name derived from its file name only when
    it has neither a [networkProfile] nor a [networkMean] column. *)
Lemma combine_files_one (fs : FileSystem) (file : string) (data : DataFrame) :
  load_data fs file = ([], Ok (Some data)) ->
  combine_files fs [file] empty_frame
  = ([], Ok (pd_concat empty_frame
               (if negb (has_column data "networkProfile")
                   && negb (has_column data "networkMean")
                then set_networkProfile data (PyStr.splitext_root file)
                else data))).
Proof.
  intros H. simpl. unfold sbind at 1. rewrite H. reflexivity.
Qed.

(** C4 (defect in the code). A combined file that lacks the
    [networkProfile] column is not always tagged: [lan.csv], which has a
    [networkMean] column, goes into the concatenation untagged, the
    combined table has no profile column, and the combined visualization
    stops with [KeyError('networkProfile')]. *)
Theorem file_with_latency_columns_is_not_tagged :
  has_column Samples.lan_file "networkProfile" = false /\
  (exists all_data,
     combine_files Samples.individual_only ["lan.csv"] empty_frame
     = ([], Ok all_data) /\
     has_column all_data "networkProfile" = false /\
     Forall (fun r => networkProfile r = None) (rows all_data)) /\
  create_combined_visualization Samples.individual_only
  = ([Print "Generating combined network profile visualization...";
      Print "Warning: File not found: results/all-experiments.csv"],
     Raise (KeyError "networkProfile")).
Proof.
  split; [reflexivity|]. split.
  - eexists. split; [vm_compute; reflexivity|].
    split; [reflexivity|]. repeat constructor.
  - vm_compute. reflexivity.
Qed.

(** the sibling case the comment of line 168 describes: a file with
    neither column is tagged with its file name *)
Example bare_file_is_tagged :
  exists all_data,
    combine_files Samples.bare_only ["lan.csv"] empty_frame = ([], Ok all_data) /\
    has_column all_data "networkProfile" = true /\
    Forall (fun r => networkProfile r = Some "lan") (rows all_data).
Proof.
  eexists. split; [vm_compute; reflexivity|].
  split; [reflexivity|]. repeat constructor.
Qed.

(* ================================================================== *)
(** ** Where the images are written *)
(* ================================================================== *)


Section SavesOnly.
Variable P : string -> Prop.









End SavesOnly.




(* ================================================================== *)
(** ** Every key with rows is plotted *)
(* ================================================================== *)

Lemma profile_same_eq (a b : option string) : profile_same a b = true <-> a = b.
Proof.
  destruct a as [x|], b as [y|]; simpl; try (split; congruence).
  rewrite String.eqb_eq. split; congruence.
Qed.









(** *** The charts are produced even though some keys have no rows *)




Lemma has_measurements_filter_out_failed (data : DataFrame) :
  has_measurements data -> has_measurements (filter_out_failed data).
Proof.
  unfold has_measurements. now rewrite !has_column_filter_out_failed.
Qed.















(* ================================================================== *)
(** ** Every surviving row is drawn, and the charts are produced *)
(* ================================================================== *)







(** *** The charts are produced *)









(* ================================================================== *)
(** ** Rows whose failure cell is missing *)
(* ================================================================== *)






(* ================================================================== *)
(** ** The profile of the normalized scaling plot *)
(* ================================================================== *)


Section SortedMinimum.
Context {A : Type}.
Variable leb : A -> A -> bool.
Hypothesis leb_total : forall x y, leb x y = true \/ leb y x = true.
Hypothesis leb_trans :
  forall x y z, leb x y = true -> leb y z = true -> leb x z = true.


End SortedMinimum.



Lemma Zleb_total (x y : Z) : (x <=? y)%Z = true \/ (y <=? x)%Z = true.
Proof. rewrite !Z.leb_le. lia. Qed.





(* ================================================================== *)
(** ** Further properties: missing input *)
(* ================================================================== *)

Lemma load_data_missing (fs : FileSystem) (filename : string) :
  os_path_exists fs (PyStr.path_join RESULTS_DIR filename) = false ->
  load_data fs filename
  = ([Print ("Warning: File not found: " ++ PyStr.path_join RESULTS_DIR filename)],
     Ok None).
Proof. intros H. unfold load_data. rewrite H. reflexivity. Qed.

Lemma load_data_found (fs : FileSystem) (filename : string) (table : DataFrame) :
  read_csv fs (PyStr.path_join RESULTS_DIR filename) = Ok table ->
  load_data fs filename = ([], Ok (Some table)).
Proof.
  intros H. unfold load_data. rewrite (read_csv_exists _ _ _ H). simpl.
  unfold lift, sbind, sret. rewrite H. reflexivity.
Qed.

(** X1. Without the aggregate file the four charts that read only it print
    their banner, the warning and "No experiment data found!", write
    nothing and return normally. *)
Theorem aggregate_charts_skip_without_file (fs : FileSystem) :
  os_path_exists fs "results/all-experiments.csv" = false ->
  create_normalized_scaling_plot fs
  = skipped_run "Generating normalized scaling plot..." /\
  create_3d_visualization fs = skipped_run "Generating 3D visualization..." /\
  create_heatmaps fs = skipped_run "Generating heatmaps..." /\
  create_comprehensive_visualization fs
  = skipped_run "Generating comprehensive visualization...".
Proof.
  intros H.
  pose proof (load_data_missing fs "all-experiments.csv" H) as Hload.
  unfold create_normalized_scaling_plot, create_3d_visualization,
    create_heatmaps, create_comprehensive_visualization.
  repeat split; unfold print at 1; unfold sbind at 1; rewrite Hload; reflexivity.
Qed.

Lemma aggregate_charts_skip_without_file_witness :
  create_heatmaps Samples.bare_only = skipped_run "Generating heatmaps...".
Proof.
  apply (aggregate_charts_skip_without_file Samples.bare_only). reflexivity.
Defined.

(** X2. With neither individual data files nor the aggregate file, the
    per-profile plots and the combined chart end after the same notice:
    nothing is written, nothing is raised, and the "generated" line is not
    printed. *)
Theorem fallback_charts_skip_without_any_data (fs : FileSystem) :
  list_data_files fs = Ok [] ->
  os_path_exists fs "results/all-experiments.csv" = false ->
  create_byzantine_impact_plots fs
  = skipped_run "Generating Byzantine impact plots for each network profile..." /\
  create_combined_visualization fs
  = skipped_run "Generating combined network profile visualization...".
Proof.
  intros Hfiles H.
  pose proof (load_data_missing fs "all-experiments.csv" H) as Hload.
  unfold create_byzantine_impact_plots, create_combined_visualization. split.
  - unfold print at 1. unfold sbind at 1. unfold lift, sbind at 1.
    rewrite Hfiles. unfold sbind at 1. rewrite Hload. reflexivity.
  - unfold print at 1. unfold sbind at 1. unfold sbind at 1. rewrite Hload.
    unfold sbind at 1. unfold lift, sbind at 1. rewrite Hfiles. reflexivity.
Qed.

Lemma fallback_charts_skip_without_any_data_witness :
  create_combined_visualization (mkFS ["results"] [])
  = skipped_run "Generating combined network profile visualization...".
Proof.
  apply (fallback_charts_skip_without_any_data (mkFS ["results"] []));
    reflexivity.
Defined.

(* ================================================================== *)
(** ** Further properties: file names and titles *)
(* ================================================================== *)

Lemma rfind_app (c : ascii) (s t : string) :
  PyStr.rfind c (s ++ t)
  = match PyStr.rfind c t with
    | Some i => Some (String.length s + i)%nat
    | None => PyStr.rfind c s
    end.
Proof.
  induction s as [|a s IH]; simpl.
  - destruct (PyStr.rfind c t); reflexivity.
  - rewrite IH. destruct (PyStr.rfind c t); [reflexivity|].
    destruct (PyStr.rfind c s); reflexivity.
Qed.

Lemma substring_app_whole (s t : string) :
  substring 0 (String.length s) (s ++ t) = s.
Proof.
  induction s as [|a s IH]; simpl.
  - destruct t; reflexivity.
  - now rewrite IH.
Qed.

Lemma substring_app_skip (s t : string) (n : nat) :
  substring (String.length s) n (s ++ t) = substring 0 n t.
Proof. induction s as [|a s IH]; simpl; [reflexivity | exact IH]. Qed.

Lemma string_length_app (s t : string) :
  String.length (s ++ t) = (String.length s + String.length t)%nat.
Proof. induction s as [|a s IH]; simpl; [reflexivity | now rewrite IH]. Qed.

Lemma rfind_none_head (c a : ascii) (s : string) :
  PyStr.rfind c (String a s) = None -> Ascii.eqb a c = false.
Proof.
  simpl. destruct (PyStr.rfind c s); [discriminate|].
  destruct (Ascii.eqb a c); [discriminate | reflexivity].
Qed.

Lemma prefix_char_false (c a : ascii) (s : string) :
  Ascii.eqb a c = false -> String.prefix (String c EmptyString) (String a s) = false.
Proof.
  intros H. cbn [String.prefix].
  destruct (ascii_dec c a) as [E|E]; [|reflexivity].
  subst. rewrite Ascii.eqb_refl in H. discriminate.
Qed.

(** X3. A data file [<stem>.csv] whose stem has no slash and does not begin
    with a dot is selected by the [.csv] test, its stem is recovered by
    [os.path.splitext], and its plot is saved as
    [visualizations/<stem>_byzantine_impact.png]. *)
Theorem data_file_stem_names_the_plot (a : ascii) (rest : string) :
  let stem := String a rest in
  Ascii.eqb a "." = false ->
  PyStr.rfind "/" stem = None ->
  PyStr.endswith (stem ++ ".csv") ".csv" = true /\
  PyStr.splitext_root (stem ++ ".csv") = stem /\
  PyStr.path_join OUTPUT_DIR
    (PyStr.splitext_root (stem ++ ".csv") ++ "_byzantine_impact.png")
  = ("visualizations/" ++ stem ++ "_byzantine_impact.png")%string.
Proof.
  intros stem Hdot Hslash.
  assert (Hroot : PyStr.splitext_root (stem ++ ".csv") = stem).
  { unfold PyStr.splitext_root. rewrite !rfind_app.
    change (PyStr.rfind "." ".csv") with (Some 0%nat).
    change (PyStr.rfind "/" ".csv") with (@None nat).
    rewrite Hslash, Nat.add_0_r.
    assert (Hd : PyStr.all_dots (stem ++ ".csv") 0 (String.length stem) = false).
    { unfold PyStr.all_dots, stem. simpl. now rewrite Hdot. }
    rewrite Hd. simpl negb. cbn [andb Nat.leb].
    apply substring_app_whole. }
  split; [|split; [exact Hroot|]].
  - unfold PyStr.endswith. rewrite string_length_app.
    change (String.length ".csv") with 4%nat.
    replace (String.length stem + 4 - 4)%nat with (String.length stem) by lia.
    rewrite substring_app_skip.
    replace (4 <=? String.length stem + 4)%nat with true
      by (symmetry; apply Nat.leb_le; lia).
    reflexivity.
  - rewrite Hroot. unfold PyStr.path_join, PyStr.startswith, stem.
    change ((String a rest ++ "_byzantine_impact.png")%string)
      with (String a (rest ++ "_byzantine_impact.png")%string).
    rewrite (prefix_char_false _ _ _ (rfind_none_head _ _ _ Hslash)).
    reflexivity.
Qed.

Lemma data_file_stem_names_the_plot_witness :
  PyStr.splitext_root "lan.csv" = "lan" /\
  PyStr.path_join OUTPUT_DIR (PyStr.splitext_root "lan.csv" ++ "_byzantine_impact.png")
  = "visualizations/lan_byzantine_impact.png".
Proof.
  destruct (data_file_stem_names_the_plot "l" "an") as (_ & H1 & H2);
    [reflexivity | reflexivity | split; [exact H1 | exact H2]].
Defined.

Lemma split_head_app (c : ascii) (s t : string) :
  PyStr.rfind c s = None -> PyStr.split_head c (s ++ String c t) = s.
Proof.
  induction s as [|a s IH]; intros H; simpl.
  - now rewrite Ascii.eqb_refl.
  - rewrite (rfind_none_head _ _ _ H).
    simpl in H. destruct (PyStr.rfind c s); [discriminate|].
    now rewrite IH.
Qed.

(** X4. The network name in the title of a per-profile plot is the output
    file name up to its first underscore: for a file name [a_rest] where
    [a] has no underscore the title shows [a], so a profile [wan_slow] is
    titled [wan]. *)
Theorem impact_title_stops_at_first_underscore
        (data : DataFrame) (a rest : string) (fig : Figure) :
  PyStr.rfind "_" a = None ->
  byzantine_impact_figure data (a ++ String "_" rest) = Ok fig ->
  exists series mean_delay std_delay,
    fig = ImpactFigure series a mean_delay std_delay.
Proof.
  intros Ha H. apply byzantine_impact_figure_Ok in H.
  destruct H as (series & md & sd & -> & _).
  rewrite (split_head_app _ _ _ Ha). eauto.
Qed.

Lemma impact_title_stops_at_first_underscore_witness :
  exists fig,
    byzantine_impact_figure Samples.experiments "wide_area_byzantine_impact.png"
    = Ok fig /\
    exists series mean_delay std_delay,
      fig = ImpactFigure series "wide" mean_delay std_delay.
Proof.
  eexists. split; [vm_compute; reflexivity|].
  apply (impact_title_stops_at_first_underscore Samples.experiments
           "wide" "area_byzantine_impact.png");
    [reflexivity | vm_compute; reflexivity].
Defined.

(* ================================================================== *)
(** ** Further properties: what the loops draw, exactly *)
(* ================================================================== *)

Lemma for_collect_exact {A B} (f : A -> option B) (body : A -> result (option B))
      (l : list A) :
  forall out, for_collect l body = Ok out ->
  (forall a o, In a l -> body a = Ok o -> o = f a) ->
  out = flat_map (fun a => option_to_list (f a)) l.
Proof.
  induction l as [|a l IH]; simpl; intros out H Hf.
  - now inversion H.
  - destruct (body a) as [o|e] eqn:Ea; [|discriminate].
    destruct (for_collect l body) as [bs|e] eqn:El; [|discriminate].
    inversion H; subst; clear H.
    rewrite <- (Hf a o (or_introl eq_refl) Ea).
    rewrite <- (IH bs eq_refl) by (intros; apply Hf; auto).
    now destruct o.
Qed.

Lemma for_each_exact {A B} (f : A -> B) (body : A -> result B) (l : list A) :
  forall out, for_each l body = Ok out ->
  (forall a b, In a l -> body a = Ok b -> b = f a) ->
  out = map f l.
Proof.
  induction l as [|a l IH]; simpl; intros out H Hf.
  - now inversion H.
  - destruct (body a) as [b|e] eqn:Ea; [|discriminate].
    destruct (for_each l body) as [bs|e] eqn:El; [|discriminate].
    inversion H; subst; clear H.
    rewrite <- (Hf a b (or_introl eq_refl) Ea).
    rewrite <- (IH bs eq_refl) by (intros; apply Hf; auto).
    reflexivity.
Qed.

Lemma errorbar_columns (pd : DataFrame) (marker : string) (label : Label) eb :
  errorbar pd marker label = Ok eb ->
  eb = mkErrorBar (map nodeNum (rows pd)) (map meanTime (rows pd))
                  (map stdTime (rows pd)) marker label.
Proof.
  unfold errorbar. intros H.
  bind_split H as xs Ex. bind_split H as ys Ey. bind_split H as es Ee.
  apply column_Ok in Ex, Ey, Ee.
  destruct Ex as [_ ->], Ey as [_ ->], Ee as [_ ->]. now inversion H.
Qed.

Lemma errorbar_group_exact (frame : DataFrame) (y : Q) (marker : string)
      (label : Label) (o : option ErrorBar) :
  (percentage_data <- percentage_data frame y ;;
   if (len percentage_data =? 0)%nat then Ok None
   else eb <- errorbar percentage_data marker label ;; Ok (Some eb))%result = Ok o ->
  o = group_errorbar (rows frame) marker label y.
Proof.
  intros H. bind_split H as pd Epd.
  apply percentage_data_Ok in Epd. destruct Epd as [_ Epd].
  fold (group_of (rows frame) y) in Epd. unfold group_errorbar.
  destruct (len pd =? 0)%nat eqn:El.
  - apply len_zero in El. rewrite <- Epd, El. now inversion H.
  - bind_split H as eb Eeb. apply errorbar_columns in Eeb.
    inversion H; subst o; clear H. rewrite <- Epd.
    destruct (rows pd) eqn:Er.
    + assert (Hz : (len pd =? 0)%nat = true) by now apply len_zero.
      congruence.
    + rewrite Eeb. rewrite ?Er. reflexivity.
Qed.

(** the per-percentage loops compute the comprehension they stand for *)
Lemma errorbar_loop_exact (frame : DataFrame) (pcts : list Q)
      (mk : nat -> string) (lab : nat -> Q -> Label) (series : list ErrorBar) :
  for_collect (enumerate pcts)
    (fun '(i, y) =>
       (percentage_data <- percentage_data frame y ;;
        if (len percentage_data =? 0)%nat then Ok None
        else eb <- errorbar percentage_data (mk i) (lab i y) ;; Ok (Some eb))%result)
  = Ok series ->
  series = flat_map (fun iy => option_to_list
                       (group_errorbar (rows frame) (mk (fst iy))
                                       (lab (fst iy) (snd iy)) (snd iy)))
                    (enumerate pcts).
Proof.
  intros H. apply (for_collect_exact _ _ _ _ H).
  intros [i y] o _ Hb. simpl. now apply errorbar_group_exact in Hb.
Qed.

Lemma map_snd_enumerate {A} (l : list A) : map snd (enumerate l) = l.
Proof.
  unfold enumerate. generalize 0%nat.
  induction l as [|a l IH]; intros s; simpl; [reflexivity | now rewrite IH].
Qed.

Lemma map_fst_enumerate {A} (l : list A) :
  map fst (enumerate l) = seq 0 (List.length l).
Proof.
  unfold enumerate. generalize 0%nat.
  induction l as [|a l IH]; intros s; simpl; [reflexivity | now rewrite IH].
Qed.

Lemma flat_map_all_some {A B} (f : A -> option B) (l : list A) :
  (forall a, In a l -> f a <> None) ->
  map Some (flat_map (fun a => option_to_list (f a)) l) = map f l.
Proof.
  induction l as [|a l IH]; simpl; intros H; [reflexivity|].
  rewrite map_app, IH by (intros; apply H; auto).
  specialize (H a (or_introl eq_refl)). destruct (f a); [reflexivity | congruence].
Qed.

Lemma group_errorbar_none (rs : list Row) (marker : string) (label : Label) (y : Q) :
  group_errorbar rs marker label y = None <-> group_of rs y = [].
Proof.
  unfold group_errorbar. destruct (group_of rs y); split; congruence.
Qed.

(** X5. In a per-profile plot the skip guard cannot fire: every distinct
    percentage of the filtered table is drawn, in ascending order, by the
    error bar of its own group with the marker of its rank. *)
Theorem impact_plot_draws_every_percentage
        (data : DataFrame) (name : string) (series : list ErrorBar)
        (nm : string) (md sd : Delay) :
  byzantine_impact_figure data name = Ok (ImpactFigure series nm md sd) ->
  let pcts := sorted_percentages (map byzantinePercentage (surviving data)) in
  map Some series
  = map (fun iy => group_errorbar (surviving data) (marker_at markers7 (fst iy))
                                  (ByzantineNodes (snd iy)) (snd iy))
        (enumerate pcts) /\
  List.length series = List.length pcts /\
  map eb_label series = map ByzantineNodes pcts.
Proof.
  intros H pcts. apply byzantine_impact_figure_Ok in H.
  destruct H as (series' & md' & sd' & Hfig & H).
  injection Hfig as E1 E2 E3 E4. subst series' md' sd'.
  unfold impact_series in H.
  apply (errorbar_loop_exact _ _ (marker_at markers7) (fun _ y => ByzantineNodes y))
    in H.
  rewrite filter_out_failed_rows in H. fold pcts in H.
  assert (Hsome : map Some series
    = map (fun iy => group_errorbar (surviving data) (marker_at markers7 (fst iy))
                                    (ByzantineNodes (snd iy)) (snd iy))
          (enumerate pcts)).
  { rewrite H. apply flat_map_all_some. intros [i y] Hin Hnone. simpl in Hnone.
    apply group_errorbar_none in Hnone.
    apply enumerate_In in Hin. apply sorted_percentages_sound in Hin.
    apply in_map_iff in Hin. destruct Hin as (r & Hr & Hin).
    apply (group_of_nonempty (surviving data) y r Hin); [|exact Hnone].
    rewrite Hr. apply Qeq_bool_refl'. }
  split; [exact Hsome|].
  assert (Hlen : List.length series = List.length pcts).
  { rewrite <- (length_map Some series), Hsome, length_map.
    rewrite <- (length_map snd), map_snd_enumerate. reflexivity. }
  split; [exact Hlen|].
  assert (Hlab : map (option_map eb_label) (map Some series)
                 = map (fun y => Some (ByzantineNodes y)) pcts).
  { rewrite Hsome, map_map.
    rewrite <- (map_snd_enumerate pcts) at 2. rewrite map_map.
    apply map_ext_in. intros [i y] Hin. simpl.
    destruct (group_errorbar (surviving data) (marker_at markers7 i)
                (ByzantineNodes y) y) as [eb|] eqn:E.
    - unfold group_errorbar in E. destruct (group_of (surviving data) y);
        [discriminate|]. now inversion E.
    - exfalso. apply group_errorbar_none in E.
      apply enumerate_In in Hin. apply sorted_percentages_sound in Hin.
      apply in_map_iff in Hin. destruct Hin as (r & Hr & Hin).
      apply (group_of_nonempty (surviving data) y r Hin); [|exact E].
      rewrite Hr. apply Qeq_bool_refl'. }
  rewrite map_map in Hlab. simpl in Hlab.
  rewrite <- (map_map eb_label Some), <- (map_map ByzantineNodes Some) in Hlab.
  revert Hlab. generalize (map eb_label series) (map ByzantineNodes pcts).
  induction l as [|a l IH]; intros [|b l']; simpl; intros E;
    try discriminate; [reflexivity|].
  inversion E. f_equal. now apply IH.
Qed.

Lemma impact_plot_draws_every_percentage_witness :
  exists series nm md sd,
    byzantine_impact_figure Samples.experiments "lan_byzantine_impact.png"
    = Ok (ImpactFigure series nm md sd) /\
    List.length series = 2%nat /\
    map eb_label series = [ByzantineNodes 0; ByzantineNodes 10].
Proof.
  do 4 eexists. split; [vm_compute; reflexivity|].
  destruct (impact_plot_draws_every_percentage Samples.experiments
              "lan_byzantine_impact.png" _ _ _ _ eq_refl) as (_ & Hlen & Hlab).
  split; [exact Hlen | exact Hlab].
Defined.

(** X6. Splitting the aggregate table by profile and then dropping failed
    trials (the per-profile plots) selects the same frame as dropping
    failed trials first and splitting afterwards (every other chart). *)
Theorem profile_split_commutes_with_failure_filter
        (all_data : DataFrame) (p : option string) (pd : DataFrame) :
  profile_data_of all_data p = Ok pd ->
  profile_data_of (filter_out_failed all_data) p = Ok (filter_out_failed pd) /\
  surviving pd = profile_rows (surviving all_data) p.
Proof.
  intros H. unfold profile_data_of in *.
  bind_split H as cells Ec. apply column_Ok in Ec. destruct Ec as [Hc _].
  inversion H; subst pd; clear H.
  assert (Hrows : surviving
                    (where_ all_data (fun r => profile_eqb (networkProfile r) p))
                  = profile_rows (surviving all_data) p).
  { unfold surviving, profile_rows.
    change (has_column (where_ all_data
                          (fun r => profile_eqb (networkProfile r) p)) "failure")
      with (has_column all_data "failure").
    change (rows (where_ all_data (fun r => profile_eqb (networkProfile r) p)))
      with (filter (fun r => profile_eqb (networkProfile r) p) (rows all_data)).
    destruct (has_column all_data "failure"); [|reflexivity].
    rewrite !filter_filter. apply filter_ext. intros r. apply andb_comm. }
  split; [|exact Hrows].
  rewrite column_present by now rewrite has_column_filter_out_failed.
  cbn [rbind]. f_equal.
  unfold filter_out_failed at 2.
  assert (Hf : has_column (where_ all_data
                             (fun r => profile_eqb (networkProfile r) p)) "failure"
               = has_column all_data "failure") by reflexivity.
  rewrite Hf. unfold filter_out_failed.
  destruct (has_column all_data "failure"); [|reflexivity].
  unfold where_. cbn [rows columns]. f_equal.
  rewrite !filter_filter. apply filter_ext. intros r. apply andb_comm.
Qed.

Lemma profile_split_commutes_with_failure_filter_witness :
  exists pd,
    profile_data_of Samples.experiments (Some "lan") = Ok pd /\
    surviving pd = profile_rows (surviving Samples.experiments) (Some "lan").
Proof.
  eexists. split; [reflexivity|].
  apply (profile_split_commutes_with_failure_filter Samples.experiments (Some "lan")).
  reflexivity.
Defined.

(* ------------------------------------------------------------------ *)
(** *** Orders *)

Section SortedOutput.
Context {A : Type}.
Variable leb : A -> A -> bool.
Hypothesis leb_total : forall x y, leb x y = true \/ leb y x = true.

Lemma insert_sorted_Sorted (x : A) (l : list A) :
  Sorted (fun a b => leb a b = true) l ->
  Sorted (fun a b => leb a b = true) (insert_sorted leb x l).
Proof.
  induction l as [|a l IH]; simpl; intros H.
  - repeat constructor.
  - destruct (leb x a) eqn:E.
    + constructor; [exact H | constructor; exact E].
    + apply Sorted_inv in H. destruct H as [Hs Hhd].
      constructor; [now apply IH|].
      assert (Hax : leb a x = true)
        by (destruct (leb_total a x) as [T|T]; [exact T | congruence]).
      destruct l as [|b l']; simpl.
      * constructor. exact Hax.
      * destruct (leb x b); constructor; [exact Hax|].
        now apply HdRel_inv in Hhd.
Qed.

Lemma sorted_Sorted (l : list A) : Sorted (fun a b => leb a b = true) (sorted leb l).
Proof.
  induction l as [|x l IH]; simpl; [constructor|].
  now apply insert_sorted_Sorted.
Qed.
End SortedOutput.

Lemma Sorted_impl {A} (R R' : A -> A -> Prop) (l : list A) :
  (forall a b, R a b -> R' a b) -> Sorted R l -> Sorted R' l.
Proof.
  intros HR H. induction H as [|a l Hs IH Hhd]; constructor; [exact IH|].
  destruct Hhd; constructor; auto.
Qed.

Lemma Qle_bool_total (x y : Q) : Qle_bool x y = true \/ Qle_bool y x = true.
Proof.
  rewrite !Qle_bool_iff. destruct (Qlt_le_dec x y) as [H|H]; [left | right; exact H].
  now apply Qlt_le_weak.
Qed.

Lemma unique_NoDupA (l : list Q) : NoDupA Qeq (unique Qeq_bool l).
Proof.
  induction l as [|x l IH]; simpl; [constructor|].
  constructor.
  - intros H. apply InA_alt in H. destruct H as (y & Hxy & Hy).
    apply filter_In in Hy. destruct Hy as [_ Hy].
    apply Qeq_bool_iff in Hxy. rewrite Hxy in Hy. discriminate.
  - clear -IH. induction IH as [|y u Hy Hu IHu]; simpl; [constructor|].
    destruct (negb (Qeq_bool x y)); [|exact IHu].
    constructor; [|exact IHu].
    intros H. apply Hy. apply InA_alt in H. destruct H as (z & Hz & Hin).
    apply filter_In in Hin. apply InA_alt. exists z. tauto.
Qed.

Lemma sorted_percentages_strict (cells : list Q) :
  StronglySorted Qlt (sorted_percentages cells).
Proof.
  unfold sorted_percentages.
  assert (Hs : StronglySorted Qle (sorted Qle_bool (unique Qeq_bool cells))).
  { apply Sorted_StronglySorted; [exact Qle_trans|].
    eapply Sorted_impl; [|apply (sorted_Sorted Qle_bool Qle_bool_total)].
    intros a b. apply Qle_bool_iff. }
  assert (Hn : NoDupA Qeq (sorted Qle_bool (unique Qeq_bool cells))).
  { eapply PermutationA_preserves_NoDupA; [exact Q_Setoid | | apply unique_NoDupA].
    apply Permutation_PermutationA; [exact Q_Setoid|].
    apply Permutation_sym, sorted_perm. }
  induction Hs as [|a l Hl IH Hall]; constructor.
  - apply IH. now inversion Hn.
  - inversion Hn as [|a' l' Hnotin Hn']; subst.
    rewrite Forall_forall in *. intros y Hy.
    destruct (Qle_lt_or_eq _ _ (Hall y Hy)) as [Hlt | Heq]; [exact Hlt|].
    exfalso. apply Hnotin. apply InA_alt. exists y. auto.
Qed.

(** X7. [sorted(column.unique())] on the percentage column: every distinct
    percentage exactly once, in strictly ascending order. *)
Theorem percentages_strictly_ascending (cells : list Q) :
  StronglySorted Qlt (sorted_percentages cells) /\
  (forall y, In y (sorted_percentages cells) -> In y cells) /\
  (forall x, In x cells -> exists y, In y (sorted_percentages cells) /\ (y == x)%Q).
Proof.
  split; [|split].
  - apply sorted_percentages_strict.
  - apply sorted_percentages_sound.
  - intros x Hx. destruct (sorted_percentages_complete cells x Hx) as (y & Hy & Hyx).
    exists y. split; [exact Hy | now apply Qeq_bool_iff].
Qed.

(* ------------------------------------------------------------------ *)
(** *** The grid and the subplots, position by position *)

Lemma grid_cell_exact (all_data frame : DataFrame) (i j : nat)
      (p : option string) (y : Q) (c : nat * nat * GridCell) :
  (percentage_data <- percentage_data frame y ;;
   if (len percentage_data =? 0)%nat then Ok (i, j, NoData)
   else
     eb <- errorbar percentage_data "o" NoLabel ;;
     _ <- column all_data "meanTime" meanTime ;;
     Ok (i, j, CellPlot eb (ProfileByzantine p y)))%result = Ok c ->
  c = (i, j, group_cell (rows frame) p y).
Proof.
  intros H. bind_split H as pd Epd.
  apply percentage_data_Ok in Epd. destruct Epd as [_ Epd].
  fold (group_of (rows frame) y) in Epd. unfold group_cell, group_errorbar.
  rewrite <- Epd.
  destruct (len pd =? 0)%nat eqn:El.
  - apply len_zero in El. rewrite El. now inversion H.
  - bind_split H as eb Eeb. bind_split H as c1 Ec1.
    apply errorbar_columns in Eeb. inversion H; subst c; clear H.
    destruct (rows pd) eqn:Er.
    + assert (Hz : (len pd =? 0)%nat = true) by now apply len_zero.
      congruence.
    + rewrite Eeb. rewrite ?Er. reflexivity.
Qed.

Lemma comprehensive_figure_exact (data : DataFrame)
      (cells : list (nat * nat * GridCell)) :
  comprehensive_figure data = Ok (GridFigure cells) ->
  exists profiles,
    sorted_profiles (map networkProfile (surviving data)) = Ok profiles /\
    profiles <> [] /\
    cells
    = flat_map
        (fun ip =>
           map (fun jy =>
                  (fst ip, fst jy,
                   group_cell (profile_rows (surviving data) (snd ip))
                              (snd ip) (snd jy)))
               (enumerate (sorted_percentages
                             (map byzantinePercentage (surviving data)))))
        (enumerate profiles).
Proof.
  intros H. unfold comprehensive_figure in H.
  bind_split H as cells0 Ec. apply column_Ok in Ec. destruct Ec as [_ ->].
  bind_split H as profiles Ep.
  bind_split H as pcts0 Eq. apply column_Ok in Eq. destruct Eq as [_ ->].
  rewrite filter_out_failed_rows in *.
  destruct ((List.length profiles =? 0)%nat || _) eqn:Elen; [discriminate|].
  apply orb_false_elim in Elen. destruct Elen as [Elen _].
  bind_split H as grid Eg. inversion H; subst cells; clear H.
  exists profiles. split; [exact Ep|]. split.
  { intros ->. discriminate Elen. }
  rewrite flat_map_concat_map. f_equal.
  apply (for_each_exact _ _ _ _ Eg).
  intros [i p] row _ Hb. simpl.
  bind_split Hb as pd Epd. apply profile_data_of_Ok in Epd.
  destruct Epd as [_ Hr]. rewrite filter_out_failed_rows in Hr.
  fold (profile_rows (surviving data) p) in Hr.
  unfold grid_row in Hb. apply (for_each_exact _ _ _ _ Hb).
  intros [j y] c _ Hc. simpl. rewrite <- Hr. now apply grid_cell_exact in Hc.
Qed.

Lemma nth_error_enumerate {A} (l : list A) (i : nat) (a : A) :
  nth_error l i = Some a -> nth_error (enumerate l) i = Some (i, a).
Proof.
  unfold enumerate. change i with (0 + i)%nat at 3. generalize 0%nat.
  revert i. induction l as [|b l IH]; intros [|i] s H; simpl in *;
    try discriminate.
  - inversion H. now rewrite Nat.add_0_r.
  - rewrite (IH i (S s) H). f_equal. f_equal. lia.
Qed.

Lemma list_prod_flat_map {A B} (l : list A) (l' : list B) :
  list_prod l l' = flat_map (fun a => map (fun b => (a, b)) l') l.
Proof. induction l as [|a l IH]; simpl; [reflexivity | now rewrite IH]. Qed.

Lemma flat_map_map_arg {A B C} (f : A -> B) (g : B -> list C) (l : list A) :
  flat_map g (map f l) = flat_map (fun a => g (f a)) l.
Proof. induction l as [|a l IH]; simpl; [reflexivity | now rewrite IH]. Qed.

Lemma map_flat_map {A B C} (f : B -> C) (g : A -> list B) (l : list A) :
  map f (flat_map g l) = flat_map (fun a => map f (g a)) l.
Proof.
  induction l as [|a l IH]; simpl; [reflexivity | now rewrite map_app, IH].
Qed.

(** X8. The comprehensive figure fills a complete grid: one subplot for every
    (profile, percentage) pair, profiles down the rows and percentages
    along the columns, each showing its own group or "No Data". *)
Theorem comprehensive_grid_is_complete (data : DataFrame)
        (cells : list (nat * nat * GridCell)) :
  comprehensive_figure data = Ok (GridFigure cells) ->
  let pcts := sorted_percentages (map byzantinePercentage (surviving data)) in
  exists profiles,
    sorted_profiles (map networkProfile (surviving data)) = Ok profiles /\
    map fst cells
    = list_prod (seq 0 (List.length profiles)) (seq 0 (List.length pcts)) /\
    List.length cells = (List.length profiles * List.length pcts)%nat /\
    forall i j p y,
      nth_error profiles i = Some p -> nth_error pcts j = Some y ->
      In (i, j, group_cell (profile_rows (surviving data) p) p y) cells.
Proof.
  intros H pcts. apply comprehensive_figure_exact in H. fold pcts in H.
  destruct H as (profiles & Hprof & _ & Hcells).
  exists profiles. split; [exact Hprof|].
  assert (Hfst : map fst cells
                 = list_prod (seq 0 (List.length profiles))
                             (seq 0 (List.length pcts))).
  { rewrite Hcells, map_flat_map, list_prod_flat_map.
    rewrite <- (map_fst_enumerate profiles), flat_map_map_arg.
    apply flat_map_ext. intros [i p]. simpl.
    rewrite map_map. simpl.
    rewrite <- (map_fst_enumerate pcts), map_map. reflexivity. }
  split; [exact Hfst|]. split.
  - rewrite <- (length_map fst cells), Hfst, length_prod, !length_seq. reflexivity.
  - intros i j p y Hi Hj. rewrite Hcells.
    apply in_flat_map. exists (i, p). split.
    + apply nth_error_In with (n := i). now apply nth_error_enumerate.
    + apply in_map_iff. exists (j, y). split; [reflexivity|].
      apply nth_error_In with (n := j). now apply nth_error_enumerate.
Qed.

Lemma comprehensive_grid_is_complete_witness :
  exists cells profiles,
    comprehensive_figure Samples.experiments = Ok (GridFigure cells) /\
    sorted_profiles (map networkProfile (surviving Samples.experiments))
    = Ok profiles /\
    List.length cells
    = (List.length profiles
       * List.length (sorted_percentages
                        (map byzantinePercentage (surviving Samples.experiments))))%nat.
Proof.
  eexists.
  destruct (comprehensive_grid_is_complete Samples.experiments _ eq_refl)
    as (profiles & Hp & _ & Hlen & _).
  exists profiles. split; [vm_compute; reflexivity|].
  split; [exact Hp | exact Hlen].
Defined.

Lemma Sorted_map {A B} (f : A -> B) (R : B -> B -> Prop) (l : list A) :
  Sorted (fun a b => R (f a) (f b)) l -> Sorted R (map f l).
Proof.
  intros H. induction H as [|a l Hs IH Hhd]; simpl; constructor; [exact IH|].
  destruct Hhd; simpl; constructor; auto.
Qed.

Lemma group_of_node_order (rs : list Row) (y : Q) :
  Sorted Z.le (map nodeNum (group_of rs y)).
Proof.
  apply Sorted_map. unfold group_of, sort_by_nodeNum.
  eapply Sorted_impl;
    [|apply (sorted_Sorted (fun a b => (nodeNum a <=? nodeNum b)%Z)
               (fun a b => Zleb_total _ _))].
  intros a b. apply Z.leb_le.
Qed.

Lemma group_errorbar_shape (rs : list Row) (marker : string) (label : Label)
      (y : Q) (eb : ErrorBar) :
  group_errorbar rs marker label y = Some eb ->
  Sorted Z.le (eb_x eb) /\
  eb_x eb <> [] /\
  List.length (eb_y eb) = List.length (eb_x eb) /\
  List.length (eb_yerr eb) = List.length (eb_x eb).
Proof.
  unfold group_errorbar. intros H.
  pose proof (group_of_node_order rs y) as Hs.
  destruct (group_of rs y) as [|r g]; [discriminate|].
  inversion H; subst eb; clear H. cbn [eb_x eb_y eb_yerr].
  split; [exact Hs|]. split; [discriminate|].
  split; simpl; rewrite !length_map; reflexivity.
Qed.

Lemma in_option_flat_map {A B} (f : A -> option B) (l : list A) (b : B) :
  In b (flat_map (fun a => option_to_list (f a)) l) ->
  exists a, In a l /\ f a = Some b.
Proof.
  intros H. apply in_flat_map in H. destruct H as (a & Ha & Hb).
  exists a. split; [exact Ha|].
  destruct (f a) as [b'|]; simpl in Hb; [|contradiction].
  destruct Hb as [<- | []]. reflexivity.
Qed.

(** X9. Every error-bar series of the per-profile plot, the combined chart
    and the grid runs through its points in ascending node count, is not
    empty, and carries as many times and deviations as node counts. *)
Theorem series_run_in_ascending_node_count (data : DataFrame) (fig : Figure)
        (eb : ErrorBar) :
  (exists name, byzantine_impact_figure data name = Ok fig) \/
  combined_figure data = Ok fig \/ comprehensive_figure data = Ok fig ->
  In eb (figure_errorbars fig) ->
  Sorted Z.le (eb_x eb) /\
  eb_x eb <> [] /\
  List.length (eb_y eb) = List.length (eb_x eb) /\
  List.length (eb_yerr eb) = List.length (eb_x eb).
Proof.
  intros H Heb.
  assert (Hg : exists rs marker label y,
             group_errorbar rs marker label y = Some eb).
  { destruct H as [(name & H) | [H | H]].
    - apply byzantine_impact_figure_Ok in H.
      destruct H as (series & md & sd & -> & H). simpl in Heb.
      unfold impact_series in H.
      apply (errorbar_loop_exact _ _ (marker_at markers7)
               (fun _ y => ByzantineNodes y)) in H.
      rewrite H in Heb. apply in_option_flat_map in Heb.
      destruct Heb as ([i y] & _ & E). eauto.
    - apply combined_figure_Ok in H.
      destruct H as (profiles & subplots & -> & _ & Hs & _). simpl in Heb.
      apply in_flat_map in Heb. destruct Heb as (sp & Hsp & Heb).
      destruct (Hs sp Hsp) as (i & _ & Hser). unfold subplot_series in Hser.
      apply (errorbar_loop_exact _ _ (marker_at markers7)
               (fun _ y => if (i =? 0)%nat then ByzantineNodes y else NoLabel))
        in Hser.
      rewrite Hser in Heb. apply in_option_flat_map in Heb.
      destruct Heb as ([j y] & _ & E). eauto.
    - pose proof (comprehensive_figure_Ok _ _ H) as Hform. cbv zeta in Hform.
      destruct Hform as (ps & cells & -> & _).
      apply comprehensive_figure_exact in H.
      destruct H as (profiles & _ & _ & Hcells). simpl in Heb.
      apply in_flat_map in Heb. destruct Heb as (c & Hc & Heb).
      rewrite Hcells in Hc. apply in_flat_map in Hc.
      destruct Hc as ([i p] & _ & Hc). apply in_map_iff in Hc.
      destruct Hc as ([j y] & <- & _). simpl in Heb.
      unfold group_cell in Heb.
      destruct (group_errorbar _ "o" NoLabel y) as [eb'|] eqn:E;
        [|contradiction].
      destruct Heb as [<- | []]. eauto. }
  destruct Hg as (rs & marker & label & y & Hg).
  eapply group_errorbar_shape; eauto.
Qed.

Lemma series_run_in_ascending_node_count_witness :
  exists fig eb,
    byzantine_impact_figure Samples.experiments "lan_byzantine_impact.png" = Ok fig /\
    In eb (figure_errorbars fig) /\
    eb_x eb = [4; 4; 8; 16]%Z /\
    Sorted Z.le (eb_x eb).
Proof.
  exists (ImpactFigure
            [mkErrorBar [8%Z] [45] [1] "o" (ByzantineNodes 0);
             mkErrorBar [4; 4; 8; 16]%Z [40; 50; 100; 60] [2; 2; 5; 3] "s"
                        (ByzantineNodes 10)]
            "lan" Unknown Unknown).
  exists (mkErrorBar [4; 4; 8; 16]%Z [40; 50; 100; 60] [2; 2; 5; 3] "s"
                     (ByzantineNodes 10)).
  split; [vm_compute; reflexivity|]. split; [simpl; auto|].
  split; [reflexivity|].
  eapply (series_run_in_ascending_node_count Samples.experiments).
  - left. exists "lan_byzantine_impact.png". vm_compute. reflexivity.
  - simpl. auto.
Defined.

(* ------------------------------------------------------------------ *)
(** *** The combined chart *)

Lemma for_each_map_eq {A B C} (g : B -> C) (h : A -> C) (body : A -> result B)
      (l : list A) :
  forall out, for_each l body = Ok out ->
  (forall a b, In a l -> body a = Ok b -> g b = h a) ->
  map g out = map h l.
Proof.
  induction l as [|a l IH]; simpl; intros out H Hf.
  - now inversion H.
  - destruct (body a) as [b|e] eqn:Ea; [|discriminate].
    destruct (for_each l body) as [bs|e] eqn:El; [|discriminate].
    inversion H; subst; clear H. simpl.
    rewrite (Hf a b (or_introl eq_refl) Ea).
    rewrite (IH bs eq_refl) by (intros; eapply Hf; eauto).
    reflexivity.
Qed.

Lemma nth_error_enumerate_inv {A} (l : list A) (i k : nat) (a : A) :
  nth_error (enumerate l) i = Some (k, a) -> k = i /\ nth_error l i = Some a.
Proof.
  destruct (nth_error l i) as [b|] eqn:E.
  - rewrite (nth_error_enumerate _ _ _ E). intros H. inversion H. auto.
  - intros H. exfalso.
    assert (Hlen : (i < List.length (enumerate l))%nat)
      by (apply nth_error_Some; congruence).
    unfold enumerate in Hlen. rewrite length_combine, length_seq, Nat.min_id in Hlen.
    apply nth_error_None in E. lia.
Qed.

Lemma In_enumerate_nth {A} (l : list A) (i : nat) (a : A) :
  In (i, a) (enumerate l) -> nth_error l i = Some a.
Proof.
  intros H. apply In_nth_error in H. destruct H as (n & H).
  apply nth_error_enumerate_inv in H. destruct H as [-> H]. exact H.
Qed.

Lemma unique_NoDup (l : list (option string)) : NoDup (unique profile_same l).
Proof.
  induction l as [|x l IH]; simpl; constructor.
  - intros H. apply filter_In in H. destruct H as [_ H].
    rewrite (proj2 (profile_same_eq x x) eq_refl) in H. discriminate.
  - now apply NoDup_filter.
Qed.

Lemma sorted_profiles_NoDup (cells profiles : list (option string)) :
  sorted_profiles cells = Ok profiles -> NoDup profiles.
Proof.
  unfold sorted_profiles. destruct (existsb is_nan _ && _); [discriminate|].
  intros H. inversion H; subst; clear H.
  eapply Permutation_NoDup; [apply Permutation_sym, sorted_perm|].
  apply unique_NoDup.
Qed.

Lemma combined_figure_exact (data : DataFrame) (subplots : list Subplot) :
  combined_figure data = Ok (CombinedFigure subplots) ->
  exists profiles,
    sorted_profiles (map networkProfile (surviving data)) = Ok profiles /\
    map (fun sp => (sp_profile sp, sp_series sp)) subplots
    = map (fun ip =>
             (snd ip,
              flat_map
                (fun jy => option_to_list
                   (group_errorbar (profile_rows (surviving data) (snd ip))
                      (marker_at markers7 (fst jy))
                      (if (fst ip =? 0)%nat then ByzantineNodes (snd jy)
                       else NoLabel)
                      (snd jy)))
                (enumerate (sorted_percentages
                              (map byzantinePercentage (surviving data))))))
          (enumerate profiles).
Proof.
  unfold combined_figure. intros H.
  bind_split H as cells Ec. apply column_Ok in Ec. destruct Ec as [_ ->].
  bind_split H as profiles Ep.
  bind_split H as pcts Eq. apply column_Ok in Eq. destruct Eq as [_ ->].
  rewrite filter_out_failed_rows in *.
  destruct (List.length profiles =? 0)%nat; [discriminate|].
  bind_split H as subplots' Es. inversion H; subst subplots'; clear H.
  exists profiles. split; [exact Ep|].
  apply (for_each_map_eq _ _ _ _ _ Es).
  intros [i p] sp _ Hb. simpl.
  bind_split Hb as pd Epd. apply profile_data_of_Ok in Epd. destruct Epd as [_ Hr].
  rewrite filter_out_failed_rows in Hr. fold (profile_rows (surviving data) p) in Hr.
  bind_split Hb as series Eser. bind_split Hb as md Emd. bind_split Hb as sd Esd.
  bind_split Hb as c1 Ec1. bind_split Hb as c2 Ec2.
  inversion Hb; subst sp; clear Hb. simpl. f_equal.
  unfold subplot_series in Eser.
  apply (errorbar_loop_exact _ _ (marker_at markers7)
           (fun _ y => if (i =? 0)%nat then ByzantineNodes y else NoLabel))
    in Eser.
  rewrite Hr in Eser. exact Eser.
Qed.

(** X10. The combined chart has one subplot per distinct profile, in sorted
    order.  In each, the line of a percentage carries the marker of that
    percentage's rank among all percentages (the same in every subplot),
    and only the lines of the first subplot are labelled, so a percentage
    the first profile lacks gets no legend entry. *)
Theorem combined_chart_has_one_subplot_per_profile
        (data : DataFrame) (subplots : list Subplot) :
  combined_figure data = Ok (CombinedFigure subplots) ->
  let pcts := sorted_percentages (map byzantinePercentage (surviving data)) in
  exists profiles,
    sorted_profiles (map networkProfile (surviving data)) = Ok profiles /\
    map sp_profile subplots = profiles /\
    NoDup profiles /\
    forall i sp eb,
      nth_error subplots i = Some sp -> In eb (sp_series sp) ->
      exists j y,
        nth_error pcts j = Some y /\
        eb_marker eb = marker_at markers7 j /\
        eb_label eb = (if (i =? 0)%nat then ByzantineNodes y else NoLabel) /\
        group_errorbar (profile_rows (surviving data) (sp_profile sp))
          (eb_marker eb) (eb_label eb) y = Some eb.
Proof.
  intros H pcts. apply combined_figure_exact in H. fold pcts in H.
  destruct H as (profiles & Hprof & Hmap).
  exists profiles. split; [exact Hprof|]. split; [|split].
  - apply (f_equal (map fst)) in Hmap. rewrite !map_map in Hmap. simpl in Hmap.
    etransitivity; [exact Hmap | apply map_snd_enumerate].
  - eapply sorted_profiles_NoDup; eauto.
  - intros i sp eb Hsp Heb.
    apply (map_nth_error (fun sp => (sp_profile sp, sp_series sp))) in Hsp.
    rewrite Hmap in Hsp.
    destruct (nth_error (enumerate profiles) i) as [[k p]|] eqn:Ei.
    2:{ rewrite nth_error_map, Ei in Hsp. discriminate. }
    rewrite (map_nth_error _ _ _ Ei) in Hsp. simpl in Hsp.
    apply nth_error_enumerate_inv in Ei. destruct Ei as [-> _].
    inversion Hsp as [[Hp Hseries]]; clear Hsp.
    rewrite <- Hseries in Heb. apply in_option_flat_map in Heb.
    destruct Heb as ([j y] & Hj & Hg). simpl in Hg.
    exists j, y. split; [now apply In_enumerate_nth|].
    assert (Hm : eb_marker eb = marker_at markers7 j /\
                 eb_label eb = (if (i =? 0)%nat then ByzantineNodes y else NoLabel)).
    { unfold group_errorbar in Hg. destruct (group_of _ y); [discriminate|].
      inversion Hg. auto. }
    destruct Hm as [Hm Hl]. split; [exact Hm|]. split; [exact Hl|].
    now rewrite Hm, Hl.
Qed.

Lemma combined_chart_has_one_subplot_per_profile_witness :
  exists subplots,
    combined_figure Samples.experiments = Ok (CombinedFigure subplots) /\
    map sp_profile subplots = [Some "lan"; Some "wan"]%string.
Proof.
  eexists. split; [vm_compute; reflexivity|].
  pose proof (combined_chart_has_one_subplot_per_profile Samples.experiments
                _ eq_refl) as H.
  cbv zeta in H. destruct H as (profiles & Hp & Hmap & _).
  vm_compute in Hp. injection Hp as Hp. rewrite Hp. exact Hmap.
Defined.

(* ================================================================== *)
(** ** Further properties: the heatmap pivot *)
(* ================================================================== *)

Lemma unique_NoDup_Z (l : list Z) : NoDup (unique Z.eqb l).
Proof.
  induction l as [|x l IH]; simpl; constructor.
  - intros H. apply filter_In in H. destruct H as [_ H].
    rewrite Z.eqb_refl in H. discriminate.
  - now apply NoDup_filter.
Qed.

Lemma sorted_unique_Z_strict (l : list Z) :
  StronglySorted Z.lt (sorted Z.leb (unique Z.eqb l)).
Proof.
  assert (Hs : StronglySorted Z.le (sorted Z.leb (unique Z.eqb l))).
  { apply Sorted_StronglySorted; [exact Z.le_trans|].
    eapply Sorted_impl; [|apply (sorted_Sorted Z.leb Zleb_total)].
    intros a b. apply Z.leb_le. }
  assert (Hn : NoDup (sorted Z.leb (unique Z.eqb l))).
  { eapply Permutation_NoDup; [apply Permutation_sym, sorted_perm|].
    apply unique_NoDup_Z. }
  induction Hs as [|a u Hu IH Hall]; constructor.
  - apply IH. now inversion Hn.
  - inversion Hn as [|a' u' Hnotin Hn']; subst.
    rewrite Forall_forall in *. intros b Hb.
    specialize (Hall b Hb). assert (a <> b) by (intros ->; contradiction). lia.
Qed.

(** X12. The pivot is a full rectangle: its node counts and its percentages
    are each listed once in strictly ascending order, every row of cells
    has one cell per percentage, and no row or column of the grid is
    entirely empty. *)
Theorem pivot_is_a_rectangle_without_empty_lines (df : DataFrame) (pv : Pivot) :
  pivot_table df = Ok pv ->
  StronglySorted Z.lt (pv_index pv) /\
  StronglySorted Qlt (pv_columns pv) /\
  List.length (pv_values pv) = List.length (pv_index pv) /\
  Forall (fun cells => List.length cells = List.length (pv_columns pv))
         (pv_values pv) /\
  (forall x, In x (pv_index pv) -> exists y, In y (pv_columns pv) /\
                                             pivot_at pv x y <> None) /\
  (forall y, In y (pv_columns pv) -> exists x, In x (pv_index pv) /\
                                               pivot_at pv x y <> None).
Proof.
  intros H. pose proof (fun x y => pivot_table_at df pv x y H) as Hat.
  unfold pivot_table in H.
  bind_split H as xs Ex. apply column_Ok in Ex. destruct Ex as [_ ->].
  bind_split H as ys Ey. apply column_Ok in Ey. destruct Ey as [_ ->].
  bind_split H as ts Et.
  inversion H; subst pv; clear H. cbn [pv_index pv_columns pv_values].
  assert (Hfilled : forall r x y,
            In r (rows df) -> nodeNum r = x ->
            Qeq_bool (byzantinePercentage r) y = true ->
            pivot_at (mkPivot
                        (sorted Z.leb (unique Z.eqb (map nodeNum (rows df))))
                        (sorted_percentages (map byzantinePercentage (rows df)))
                        (map (fun x => map (fun y =>
                                lookup_group (x, y) (groupby_mean (rows df)))
                                (sorted_percentages
                                   (map byzantinePercentage (rows df))))
                             (sorted Z.leb (unique Z.eqb (map nodeNum (rows df))))))
                     x y <> None).
  { intros r x y Hr Hx Hy. rewrite Hat.
    assert (Hin : In r (filter (fun r0 => key_eqb (group_key r0) (x, y))
                               (rows df))).
    { apply filter_In. split; [exact Hr|]. unfold key_eqb, group_key.
      cbn [fst snd]. rewrite Hx, Z.eqb_refl, Hy. reflexivity. }
    destruct (filter _ (rows df)); [contradiction | discriminate]. }
  split; [apply sorted_unique_Z_strict|].
  split; [apply sorted_percentages_strict|].
  split; [apply length_map|]. split.
  - apply Forall_forall. intros cells Hc. apply in_map_iff in Hc.
    destruct Hc as (x & <- & _). apply length_map.
  - split.
    + intros x Hx. apply In_sorted, unique_sound, in_map_iff in Hx.
      destruct Hx as (r & <- & Hr).
      destruct (sorted_percentages_complete (map byzantinePercentage (rows df))
                  (byzantinePercentage r) (in_map _ _ _ Hr)) as (y & Hy & Hyr).
      exists y. split; [exact Hy|].
      apply (Hfilled r); [exact Hr | reflexivity | now rewrite Qeq_bool_comm].
    + intros y Hy. apply sorted_percentages_sound, in_map_iff in Hy.
      destruct Hy as (r & <- & Hr).
      exists (nodeNum r). split;
        [|apply (Hfilled r); [exact Hr | reflexivity | apply Qeq_bool_refl']].
      apply In_sorted.
      destruct (unique_complete Z.eqb Z.eqb_refl
                  (fun a b c H1 H2 => proj2 (Z.eqb_eq a c)
                     (eq_trans (proj1 (Z.eqb_eq a b) H1) (proj1 (Z.eqb_eq b c) H2)))
                  (map nodeNum (rows df)) (nodeNum r) (in_map _ _ _ Hr))
        as (a & Ha & Har).
      apply Z.eqb_eq in Har. now subst.
Qed.

Lemma pivot_is_a_rectangle_without_empty_lines_witness :
  exists pv,
    pivot_table Samples.experiments = Ok pv /\
    StronglySorted Z.lt (pv_index pv) /\
    List.length (pv_values pv) = List.length (pv_index pv).
Proof.
  eexists. split; [vm_compute; reflexivity|].
  destruct (pivot_is_a_rectangle_without_empty_lines Samples.experiments _ eq_refl)
    as (Hi & _ & Hl & _).
  vm_compute in Hl. split; [exact Hi | vm_compute; reflexivity].
Defined.

(* ================================================================== *)
(** ** Further properties: a table whose trials all failed *)
(* ================================================================== *)

Lemma column_of_empty {A} (d : DataFrame) (name : string) (cell : Row -> A) :
  has_column d name = true -> rows d = [] -> column d name cell = Ok [].
Proof. intros Hc Hr. unfold column. now rewrite Hc, Hr. Qed.

Lemma normalized_scaling_on_empty (data : DataFrame) :
  has_column data "byzantinePercentage" = true ->
  has_column data "networkProfile" = true ->
  surviving data = [] ->
  normalized_scaling_figure data = Raise IndexError.
Proof.
  intros Hp Hn He. unfold normalized_scaling_figure, fastest_profile.
  rewrite <- has_column_filter_out_failed in Hp, Hn.
  rewrite <- filter_out_failed_rows in He.
  rewrite (column_of_empty _ _ _ Hp He). cbn [rbind].
  rewrite (column_of_empty _ _ _ Hn He). reflexivity.
Qed.

Lemma scatter3d_on_empty (data : DataFrame) :
  has_column data "byzantinePercentage" = true ->
  has_column data "networkProfile" = true ->
  surviving data = [] ->
  scatter3d_figure data = Ok (ScatterFigure []).
Proof.
  intros Hp Hn He. unfold scatter3d_figure.
  rewrite <- has_column_filter_out_failed in Hp, Hn.
  rewrite <- filter_out_failed_rows in He.
  rewrite (column_of_empty _ _ _ Hn He). cbn [rbind].
  change (sorted_profiles []) with (Ok (@nil (option string))). cbn [rbind].
  rewrite (column_of_empty _ _ _ Hp He). reflexivity.
Qed.

(** X13. When no trial of the aggregate table survives the failure filter,
    the scaling plot stops with [IndexError] (there is no first profile),
    the 3D chart is saved without any artist, and the heatmap step writes
    nothing and reports success. *)
Theorem charts_of_a_table_without_survivors (fs : FileSystem) (data : DataFrame) :
  read_csv fs "results/all-experiments.csv" = Ok data ->
  has_column data "byzantinePercentage" = true ->
  has_column data "networkProfile" = true ->
  surviving data = [] ->
  create_normalized_scaling_plot fs
  = ([Print "Generating normalized scaling plot..."], Raise IndexError) /\
  create_3d_visualization fs
  = ([Print "Generating 3D visualization...";
      SaveFig "visualizations/3d_visualization.png" (ScatterFigure []);
      Print "✓ 3D visualization generated"], Ok tt) /\
  create_heatmaps fs
  = ([Print "Generating heatmaps..."; Print "✓ Heatmaps generated"], Ok tt).
Proof.
  intros Hread Hp Hn He.
  pose proof (load_data_found fs "all-experiments.csv" data Hread) as Hload.
  split; [|split].
  - unfold create_normalized_scaling_plot.
    unfold print at 1. unfold sbind at 1. rewrite Hload.
    unfold sbind, lift. now rewrite (normalized_scaling_on_empty _ Hp Hn He).
  - unfold create_3d_visualization.
    unfold print at 1. unfold sbind at 1. rewrite Hload.
    unfold sbind, lift. now rewrite (scatter3d_on_empty _ Hp Hn He).
  - unfold create_heatmaps.
    unfold print at 1. unfold sbind at 1. rewrite Hload.
    rewrite <- has_column_filter_out_failed in Hn.
    rewrite <- filter_out_failed_rows in He.
    unfold sbind, lift. rewrite (column_of_empty _ _ _ Hn He). reflexivity.
Qed.

Lemma charts_of_a_table_without_survivors_witness :
  create_normalized_scaling_plot MoreSamples.all_failed_fs
  = ([Print "Generating normalized scaling plot..."], Raise IndexError) /\
  create_heatmaps MoreSamples.all_failed_fs
  = ([Print "Generating heatmaps..."; Print "✓ Heatmaps generated"], Ok tt).
Proof.
  destruct (charts_of_a_table_without_survivors MoreSamples.all_failed_fs
              MoreSamples.all_failed) as (H1 & _ & H3);
    [reflexivity | reflexivity | reflexivity | reflexivity | ].
  split; [exact H1 | exact H3].
Defined.

(** X14. A per-profile plot of a table without survivors (a profile whose
    trials all failed): with no latency column the image is written with
    no line at all and "Unknown" delays; with a [networkMean] or
    [networkStd] column the title's [.iloc[0]] raises [IndexError]. *)
Theorem impact_plot_of_a_table_without_survivors (data : DataFrame) (name : string) :
  has_measurements data ->
  surviving data = [] ->
  (has_column data "networkMean" = false ->
   has_column data "networkStd" = false ->
   byzantine_impact_figure data name
   = Ok (ImpactFigure [] (PyStr.split_head "_" name) Unknown Unknown)) /\
  (has_column data "networkMean" = true \/ has_column data "networkStd" = true ->
   byzantine_impact_figure data name = Raise IndexError).
Proof.
  intros Hwf He. apply has_measurements_filter_out_failed in Hwf.
  destruct Hwf as (Hn & Hp & Hm & Hs).
  rewrite <- filter_out_failed_rows in He.
  assert (Hfig : byzantine_impact_figure data name
                 = (mean_delay <- delay_of (filter_out_failed data)
                                   "networkMean" networkMean ;;
                    std_delay <- delay_of (filter_out_failed data)
                                  "networkStd" networkStd ;;
                    Ok (ImpactFigure [] (PyStr.split_head "_" name)
                                     mean_delay std_delay))%result).
  { unfold byzantine_impact_figure.
    rewrite (column_of_empty _ _ _ Hp He). cbn [rbind].
    change (impact_series (filter_out_failed data) (sorted_percentages []))
      with (Ok (@nil ErrorBar)). cbn [rbind].
    rewrite (column_of_empty _ _ _ Hn He), (column_of_empty _ _ _ Hm He).
    reflexivity. }
  rewrite Hfig. unfold delay_of. rewrite He, !has_column_filter_out_failed.
  split.
  - intros -> ->. reflexivity.
  - intros [-> | Hstd]; [reflexivity|].
    rewrite Hstd. destruct (has_column data "networkMean"); reflexivity.
Qed.

Lemma impact_plot_of_a_table_without_survivors_witness :
  byzantine_impact_figure MoreSamples.all_failed "lan_byzantine_impact.png"
  = Ok (ImpactFigure [] "lan" Unknown Unknown) /\
  byzantine_impact_figure MoreSamples.all_failed_with_delay "lan_byzantine_impact.png"
  = Raise IndexError.
Proof.
  split.
  - apply (proj1 (impact_plot_of_a_table_without_survivors MoreSamples.all_failed
                    "lan_byzantine_impact.png"
                    ltac:(repeat split; reflexivity) eq_refl));
      reflexivity.
  - apply (proj2 (impact_plot_of_a_table_without_survivors
                    MoreSamples.all_failed_with_delay "lan_byzantine_impact.png"
                    ltac:(repeat split; reflexivity) eq_refl)).
    left. reflexivity.
Defined.

(* ================================================================== *)
(** ** Further properties: one image per profile, one per data file *)
(* ================================================================== *)

Lemma outcome_sbind {A B} (m : Script A) (k : A -> Script B) :
  outcome (sbind m k)
  = match outcome m with
    | Ok a => outcome (k a)
    | Raise e => Raise e
    end.
Proof.
  destruct m as [log [a|e]]; simpl; [|reflexivity].
  now destruct (k a).
Qed.



Lemma sbind_ret_l {A B} (a : A) (k : A -> Script B) : sbind ([], Ok a) k = k a.
Proof. unfold sbind. now destruct (k a). Qed.







(* ================================================================== *)
(** ** Further properties: the run as a whole *)
(* ================================================================== *)

Lemma sbind_must_raise {A B} (m : Script A) (k : A -> Script B) :
  (forall a, exists e, outcome (k a) = Raise e) ->
  exists e, outcome (sbind m k) = Raise e.
Proof.
  intros H. rewrite outcome_sbind. destruct (outcome m) as [a|e]; eauto.
Qed.

Lemma sbind_raise_first {A B} (m : Script A) (k : A -> Script B) :
  (exists e, outcome m = Raise e) -> exists e, outcome (sbind m k) = Raise e.
Proof. intros (e & H). rewrite outcome_sbind, H. eauto. Qed.

Lemma ensure_output_dir_files (fs : FileSystem) :
  fs_files (fst (ensure_output_dir fs)) = fs_files fs.
Proof.
  unfold ensure_output_dir. now destruct (os_path_exists fs OUTPUT_DIR).
Qed.

Lemma read_csv_same_files (fs fs' : FileSystem) (path : string) :
  fs_files fs' = fs_files fs -> read_csv fs' path = read_csv fs path.
Proof. intros H. unfold read_csv. now rewrite H. Qed.

Lemma main_raises (fs : FileSystem) (table : DataFrame) :
  read_csv fs "results/all-experiments.csv" = Ok table ->
  has_column table "time_per_node" = false ->
  exists e, outcome (main fs) = Raise e.
Proof.
  intros Hread Hcol. unfold main.
  pose proof (ensure_output_dir_files fs) as Hfiles.
  destruct (ensure_output_dir fs) as [fs1 made]. cbn [fst] in Hfiles.
  rewrite <- (read_csv_same_files fs fs1 _ Hfiles) in Hread.
  apply sbind_must_raise. intros _.
  apply sbind_must_raise. intros _.
  apply sbind_must_raise. intros _.
  apply sbind_must_raise. intros _.
  apply sbind_raise_first.
  destruct (normalized_scaling_never_saves fs1 table
              (load_data_found fs1 "all-experiments.csv" table Hread) Hcol)
    as (e & He).
  exists e. now rewrite He.
Qed.

(** *** What the run emits before it stops *)

Lemma early_sbind {A B} (m : Script A) (k : A -> Script B) :
  forallb before_3d_chart (events m) = true ->
  (forall a, forallb before_3d_chart (events (k a)) = true) ->
  forallb before_3d_chart (events (sbind m k)) = true.
Proof.
  intros Hm Hk. destruct m as [log [a|e]]; simpl in *; [|exact Hm].
  specialize (Hk a). destruct (k a) as [log' r]. simpl in *.
  rewrite forallb_app, Hm, Hk. reflexivity.
Qed.

Lemma early_sfor {A} (l : list A) (body : A -> Script unit) :
  (forall a, forallb before_3d_chart (events (body a)) = true) ->
  forallb before_3d_chart (events (sfor l body)) = true.
Proof.
  intros H. induction l as [|a l IH]; [reflexivity|].
  cbn [sfor]. apply early_sbind; auto.
Qed.

Lemma early_load_data (fs : FileSystem) (filename : string) :
  forallb before_3d_chart (events (load_data fs filename)) = true.
Proof.
  unfold load_data. destruct (negb _); [reflexivity|].
  destruct (read_csv fs _); reflexivity.
Qed.

Lemma early_combine_files (fs : FileSystem) (files : list string) :
  forall all_data,
    forallb before_3d_chart (events (combine_files fs files all_data)) = true.
Proof.
  induction files as [|file rest IH]; intros all_data; [reflexivity|].
  cbn [combine_files]. apply early_sbind; [apply early_load_data|].
  intros [data|]; apply IH.
Qed.

Lemma early_plot_byzantine_impact (data : DataFrame) (name : string) :
  forallb before_3d_chart (events (plot_byzantine_impact data name)) = true.
Proof.
  unfold plot_byzantine_impact.
  destruct (byzantine_impact_figure data name) as [fig|e] eqn:Efig; [|reflexivity].
  destruct (byzantine_impact_figure_Ok _ _ _ Efig) as (series & md & sd & -> & _).
  reflexivity.
Qed.

Lemma early_create_byzantine_impact_plots (fs : FileSystem) :
  forallb before_3d_chart (events (create_byzantine_impact_plots fs)) = true.
Proof.
  unfold create_byzantine_impact_plots.
  apply early_sbind; [reflexivity | intros _].
  apply early_sbind; [now destruct (list_data_files fs) | intros files].
  destruct files as [|f rest].
  - apply early_sbind; [apply early_load_data | intros [all_data|]]; [|reflexivity].
    apply early_sbind;
      [now destruct (column all_data "networkProfile" networkProfile) | intros cells].
    apply early_sbind; [|reflexivity].
    apply early_sfor. intros profile.
    apply early_sbind;
      [now destruct (profile_data_of all_data profile) | intros profile_data].
    apply early_plot_byzantine_impact.
  - apply early_sbind; [|reflexivity].
    apply early_sfor. intros file.
    apply early_sbind; [apply early_load_data | intros [data|]]; [|reflexivity].
    apply early_plot_byzantine_impact.
Qed.

Lemma early_create_combined_visualization (fs : FileSystem) :
  forallb before_3d_chart (events (create_combined_visualization fs)) = true.
Proof.
  unfold create_combined_visualization.
  apply early_sbind; [reflexivity | intros _].
  apply early_sbind; [apply early_load_data | intros loaded].
  apply early_sbind.
  - destruct loaded as [all_data|]; [reflexivity|].
    apply early_sbind; [now destruct (list_data_files fs) | intros files].
    destruct files as [|f rest]; [reflexivity|].
    apply early_sbind; [apply early_combine_files | reflexivity].
  - intros [all_data|]; [|reflexivity].
    destruct (combined_figure all_data) as [fig|e] eqn:Efig; [|reflexivity].
    destruct (combined_figure_Ok _ _ Efig) as (profiles & subplots & -> & _).
    reflexivity.
Qed.

Lemma early_made (fs : FileSystem) :
  forallb before_3d_chart (snd (ensure_output_dir fs)) = true.
Proof.
  unfold ensure_output_dir. now destruct (os_path_exists fs OUTPUT_DIR).
Qed.

Lemma main_stops_early (fs : FileSystem) (table : DataFrame) :
  read_csv fs "results/all-experiments.csv" = Ok table ->
  has_column table "time_per_node" = false ->
  forallb before_3d_chart (events (main fs)) = true.
Proof.
  intros Hread Hcol. unfold main.
  pose proof (ensure_output_dir_files fs) as Hfiles.
  pose proof (early_made fs) as Hmade.
  destruct (ensure_output_dir fs) as [fs1 made]. cbn [fst snd] in Hfiles, Hmade.
  rewrite <- (read_csv_same_files fs fs1 _ Hfiles) in Hread.
  apply early_sbind; [reflexivity | intros _].
  apply early_sbind; [exact Hmade | intros _].
  apply early_sbind; [apply early_create_byzantine_impact_plots | intros _].
  apply early_sbind; [apply early_create_combined_visualization | intros _].
  destruct (normalized_scaling_never_saves fs1 table
              (load_data_found fs1 "all-experiments.csv" table Hread) Hcol)
    as (e & He).
  rewrite He. reflexivity.
Qed.

(** X17. Whenever the aggregate file exists and its table has no
    [time_per_node] column, the script does not run to completion.  It
    ends with an exception that is raised by the scaling plot at the
    latest: the scaling plot never reports completion, the banners of the
    3D chart, the heatmaps and the comprehensive figure are never printed,
    and the only figures saved are per-profile and combined charts. *)
Theorem run_ends_with_an_exception (fs : FileSystem) (table : DataFrame) :
  read_csv fs "results/all-experiments.csv" = Ok table ->
  has_column table "time_per_node" = false ->
  (exists e, outcome (Visualizer.run fs) = Raise e) /\
  ~ In (Print "✓ Normalized scaling plot generated") (events (Visualizer.run fs)) /\
  ~ In (Print "Generating 3D visualization...") (events (Visualizer.run fs)) /\
  ~ In (Print "Generating heatmaps...") (events (Visualizer.run fs)) /\
  ~ In (Print "Generating comprehensive visualization...")
       (events (Visualizer.run fs)) /\
  (forall path fig,
     In (SaveFig path fig) (events (Visualizer.run fs)) ->
     (exists series name mean_delay std_delay,
        fig = ImpactFigure series name mean_delay std_delay) \/
     (exists subplots, fig = CombinedFigure subplots)).
Proof.
  intros Hread Hcol.
  assert (Hraise : exists e, outcome (Visualizer.run fs) = Raise e).
  { unfold run.
    pose proof (ensure_output_dir_files fs) as Hfiles.
    destruct (ensure_output_dir fs) as [fs1 made]. cbn [fst] in Hfiles.
    rewrite <- (read_csv_same_files fs fs1 _ Hfiles) in Hread.
    apply sbind_must_raise. intros _. eapply main_raises; eauto. }
  assert (Hearly : forall ev, In ev (events (Visualizer.run fs)) ->
                              before_3d_chart ev = true).
  { apply forallb_forall. unfold run.
    pose proof (ensure_output_dir_files fs) as Hfiles.
    pose proof (early_made fs) as Hmade.
    destruct (ensure_output_dir fs) as [fs1 made]. cbn [fst snd] in Hfiles, Hmade.
    rewrite <- (read_csv_same_files fs fs1 _ Hfiles) in Hread.
    apply early_sbind; [exact Hmade | intros _].
    eapply main_stops_early; eauto. }
  split; [exact Hraise|].
  repeat split;
    try (intros Hin; apply Hearly in Hin; vm_compute in Hin; discriminate Hin).
  intros path fig Hin. apply Hearly in Hin.
  destruct fig; cbn [before_3d_chart] in Hin; try discriminate Hin;
    [left | right]; eauto.
Qed.

Lemma run_ends_with_an_exception_witness :
  (exists e, outcome (Visualizer.run Samples.aggregate_only) = Raise e) /\
  ~ In (Print "Generating 3D visualization...")
       (events (Visualizer.run Samples.aggregate_only)).
Proof.
  destruct (run_ends_with_an_exception Samples.aggregate_only Samples.experiments)
    as (Hraise & _ & H3d & _); [reflexivity | reflexivity |].
  split; [exact Hraise | exact H3d].
Defined.

(* ================================================================== *)
(** ** Further properties: combining the individual files *)
(* ================================================================== *)

Lemma sbind_Ok_inv {A B} (m : Script A) (k : A -> Script B) log (b : B) :
  sbind m k = (log, Ok b) ->
  exists l1 a l2, m = (l1, Ok a) /\ k a = (l2, Ok b).
Proof.
  destruct m as [l1 [a|e]]; simpl; [|discriminate].
  destruct (k a) as [l2 r] eqn:E. intros H. inversion H; subst.
  exists l1, a, l2. auto.
Qed.

Lemma has_column_concat_l (a b : DataFrame) (c : string) :
  has_column a c = true -> has_column (pd_concat a b) c = true.
Proof.
  unfold has_column, pd_concat. cbn [columns]. intros H.
  rewrite existsb_app, H. reflexivity.
Qed.

Lemma has_column_concat_r (a b : DataFrame) (c : string) :
  has_column b c = true -> has_column (pd_concat a b) c = true.
Proof.
  intros H. destruct (has_column a c) eqn:Ea; [now apply has_column_concat_l|].
  unfold has_column, pd_concat in *. cbn [columns].
  rewrite existsb_app. apply orb_true_iff. right.
  apply existsb_exists in H. destruct H as (x & Hx & Hcx).
  apply existsb_exists. exists x. split; [|exact Hcx].
  apply filter_In. split; [exact Hx|].
  apply String.eqb_eq in Hcx. subst x. unfold has_column. now rewrite Ea.
Qed.

Lemma reindex_keeps (cols : list string) (r : Row) :
  same_measurements r (reindex cols r) /\
  (existsb (String.eqb "networkProfile") cols = true ->
   networkProfile (reindex cols r) = networkProfile r).
Proof.
  unfold same_measurements, reindex. cbn [nodeNum byzantinePercentage meanTime
    stdTime networkProfile]. repeat split. now intros ->.
Qed.

Lemma same_measurements_trans (r r' r'' : Row) :
  same_measurements r r' -> same_measurements r' r'' -> same_measurements r r''.
Proof. unfold same_measurements. intuition congruence. Qed.

(** once a row with a profile is in the accumulated table, the later
    concatenations keep it, profile and measurements *)
Lemma combine_files_keeps (fs : FileSystem) (rest : list string) :
  forall acc log all,
    combine_files fs rest acc = (log, Ok all) ->
    has_column acc "networkProfile" = true ->
    forall r, In r (rows acc) ->
      exists r', In r' (rows all) /\
                 networkProfile r' = networkProfile r /\ same_measurements r r'.
Proof.
  induction rest as [|f rest IH]; intros acc log all H Hc r Hr.
  - simpl in H. inversion H; subst. exists r.
    unfold same_measurements. repeat split; auto.
  - cbn [combine_files] in H. apply sbind_Ok_inv in H.
    destruct H as (l1 & o & l2 & _ & H).
    destruct o as [d|]; [|now apply (IH acc l2 all H Hc r Hr)].
    destruct (reindex_keeps (columns acc) r) as [Hm Hp].
    destruct (IH _ l2 all H (has_column_concat_l _ _ _ Hc)
                (reindex (columns acc) r)) as (r' & Hin & Hprof & Hsame).
    { unfold pd_concat. cbn [rows]. apply in_or_app. left. now apply in_map. }
    exists r'. split; [exact Hin|]. split.
    + rewrite Hprof. now apply Hp.
    + exact (same_measurements_trans _ _ _ Hm Hsame).
Qed.

(** X18. Among the files combined by the fallback of the combined chart, every
    row of a file that has neither a [networkProfile] nor a [networkMean]
    column reaches the combined table with its measurements unchanged and
    the file's stem as its profile. *)
Theorem untagged_bare_file_rows_get_the_file_stem
        (fs : FileSystem) (files : list string) (file : string)
        (table : DataFrame) :
  In file files ->
  read_csv fs (PyStr.path_join RESULTS_DIR file) = Ok table ->
  has_column table "networkProfile" = false ->
  has_column table "networkMean" = false ->
  forall acc log all,
    combine_files fs files acc = (log, Ok all) ->
    forall r, In r (rows table) ->
      exists r', In r' (rows all) /\
                 networkProfile r' = Some (PyStr.splitext_root file) /\
                 same_measurements r r'.
Proof.
  intros Hin Hread Hnp Hnm.
  induction files as [|f rest IH]; [contradiction|].
  intros acc log all H r Hr.
  cbn [combine_files] in H.
  destruct (string_dec f file) as [-> | Hneq].
  - clear IH Hin. rewrite (load_data_found _ _ _ Hread), sbind_ret_l in H.
    rewrite Hnp, Hnm in H. cbn [negb andb] in H.
    set (tagged := set_networkProfile table (PyStr.splitext_root file)) in *.
    assert (Htag : has_column tagged "networkProfile" = true).
    { unfold tagged, set_networkProfile, has_column. cbn [columns].
      fold (has_column table "networkProfile"). rewrite Hnp.
      rewrite existsb_app. apply orb_true_iff. right. reflexivity. }
    set (r1 := mkRow (Some (PyStr.splitext_root file)) (nodeNum r)
                     (byzantinePercentage r) (meanTime r) (stdTime r)
                     (networkMean r) (networkStd r) (failure r) (time_per_node r)).
    assert (Hr1 : In r1 (rows tagged)).
    { unfold tagged, set_networkProfile. cbn [rows].
      apply in_map_iff. exists r. split; [reflexivity | exact Hr]. }
    destruct (reindex_keeps (columns tagged) r1) as [Hm Hp].
    destruct (combine_files_keeps fs rest _ log all H
                (has_column_concat_r _ _ _ Htag)
                (reindex (columns tagged) r1)) as (r' & Hin' & Hprof & Hsame).
    { unfold pd_concat. cbn [rows]. apply in_or_app. right. now apply in_map. }
    exists r'. split; [exact Hin'|]. split.
    + rewrite Hprof. rewrite Hp; [reflexivity | exact Htag].
    + eapply same_measurements_trans; [|exact Hsame].
      eapply same_measurements_trans; [|exact Hm].
      unfold same_measurements, r1. repeat split; reflexivity.
  - destruct Hin as [E | Hin]; [congruence|].
    apply sbind_Ok_inv in H. destruct H as (l1 & o & l2 & _ & H).
    destruct o as [d|]; eapply IH; eauto.
Qed.

Lemma untagged_bare_file_rows_get_the_file_stem_witness :
  exists all,
    combine_files Samples.bare_only ["lan.csv"] empty_frame = ([], Ok all) /\
    exists r', In r' (rows all) /\ networkProfile r' = Some "lan" /\
               same_measurements (mkRow None 4 0 30 2 None None None None) r'.
Proof.
  eexists. split; [vm_compute; reflexivity|].
  apply (untagged_bare_file_rows_get_the_file_stem Samples.bare_only
           ["lan.csv"] "lan.csv" Samples.bare_file
           (or_introl eq_refl) eq_refl eq_refl eq_refl empty_frame []).
  - vm_compute. reflexivity.
  - simpl. auto.
Defined.

(* ================================================================== *)
(** ** Further properties: the artists of the 3D chart *)
(* ================================================================== *)

Lemma sorted_percentages_least (cells : list Q) (y y' : Q) :
  nth_error (sorted_percentages cells) 0 = Some y ->
  In y' (sorted_percentages cells) -> (y <= y')%Q.
Proof.
  unfold sorted_percentages. intros H Hin.
  assert (Hs : StronglySorted Qle (sorted Qle_bool (unique Qeq_bool cells))).
  { apply Sorted_StronglySorted; [exact Qle_trans|].
    eapply Sorted_impl; [|apply (sorted_Sorted Qle_bool Qle_bool_total)].
    intros a b. apply Qle_bool_iff. }
  destruct (sorted Qle_bool (unique Qeq_bool cells)) as [|a l]; [discriminate|].
  simpl in H. inversion H; subst a; clear H.
  destruct Hin as [<- | Hin]; [apply Qle_refl|].
  apply StronglySorted_inv in Hs. destruct Hs as [_ Hall].
  rewrite Forall_forall in Hall. auto.
Qed.

(** X19. In the 3D chart every artist is one (profile, percentage) group with
    at least one surviving row, in ascending node count.  Its colour is
    that of the profile's rank (four colours, reused from the fifth profile
    on), its marker that of the percentage's rank, and it is labelled only
    when the percentage has rank 0: every legend entry names the smallest
    percentage of the whole table, and a profile without rows at that
    percentage has no legend entry. *)
Theorem scatter_style_follows_ranks
        (data : DataFrame) (artists : list Scatter) (sc : Scatter) :
  scatter3d_figure data = Ok (ScatterFigure artists) ->
  In sc artists ->
  let pcts := sorted_percentages (map byzantinePercentage (surviving data)) in
  exists profiles i p j y,
    sorted_profiles (map networkProfile (surviving data)) = Ok profiles /\
    nth_error profiles i = Some p /\
    nth_error pcts j = Some y /\
    sc_color sc = marker_at profile_colors i /\
    sc_marker sc = marker_at markers4 j /\
    sc_label sc = (if (j =? 0)%nat then ProfileByzantine p y else NoLabel) /\
    group_of (profile_rows (surviving data) p) y <> [] /\
    sc_x sc = map nodeNum (group_of (profile_rows (surviving data) p) y) /\
    sc_y sc = map byzantinePercentage
                  (group_of (profile_rows (surviving data) p) y) /\
    sc_z sc = map meanTime (group_of (profile_rows (surviving data) p) y) /\
    (sc_label sc <> NoLabel -> forall y', In y' pcts -> (y <= y')%Q).
Proof.
  intros H Hsc pcts. unfold scatter3d_figure in H.
  bind_split H as cells Ec. apply column_Ok in Ec. destruct Ec as [_ ->].
  bind_split H as profiles Ep.
  bind_split H as pcts' Eq. apply column_Ok in Eq. destruct Eq as [_ ->].
  bind_split H as groups Ea. inversion H; subst artists; clear H.
  rewrite filter_out_failed_rows in *. fold pcts in Ea.
  apply in_concat in Hsc. destruct Hsc as (group & Hg & Hsc).
  apply (for_each_In _ _ _ Ea) in Hg. destruct Hg as ([i p] & Hi & Hb).
  bind_split Hb as pd Epd. apply profile_data_of_Ok in Epd. destruct Epd as [_ Hr].
  rewrite filter_out_failed_rows in Hr. fold (profile_rows (surviving data) p) in Hr.
  unfold scatter_series in Hb.
  apply (for_collect_In _ _ _ Hb) in Hsc. destruct Hsc as ([j y] & Hj & Hc).
  bind_split Hc as g Eg. apply percentage_data_Ok in Eg. destruct Eg as [_ Eg].
  fold (group_of (rows pd) y) in Eg. rewrite Hr in Eg.
  destruct (len g =? 0)%nat eqn:El; [discriminate|].
  bind_split Hc as xs Ex. bind_split Hc as ys Ey. bind_split Hc as zs Ez.
  apply column_Ok in Ex, Ey, Ez.
  destruct Ex as [_ ->], Ey as [_ ->], Ez as [_ ->].
  inversion Hc; subst sc; clear Hc. cbn [sc_x sc_y sc_z sc_color sc_marker sc_label].
  apply In_enumerate_nth in Hi, Hj.
  exists profiles, i, p, j, y. rewrite <- Eg.
  repeat (split; [first [assumption | reflexivity]|]).
  split.
  - intros E. assert (Hz : (len g =? 0)%nat = true) by now apply len_zero.
    congruence.
  - repeat (split; [reflexivity|]).
    destruct j as [|j]; [|intros F; now contradiction F].
    intros _ y' Hy'. now apply (sorted_percentages_least _ _ _ Hj).
Qed.

Lemma scatter_style_follows_ranks_witness :
  exists artists sc,
    scatter3d_figure Samples.experiments = Ok (ScatterFigure artists) /\
    In sc artists /\
    exists i j,
      sc_color sc = marker_at profile_colors i /\
      sc_marker sc = marker_at markers4 j /\
      (sc_label sc <> NoLabel -> j = 0%nat).
Proof.
  eexists. eexists. split; [vm_compute; reflexivity|].
  split; [do 2 right; left; reflexivity|].
  match goal with
  | |- context [sc_color ?s] =>
      pose proof (scatter_style_follows_ranks Samples.experiments _ s eq_refl
                    (or_intror (or_intror (or_introl eq_refl)))) as H
  end.
  cbv zeta in H.
  destruct H as (profiles & i & p & j & y & _ & _ & _ & Hc & Hm & Hl & _).
  exists i, j. split; [exact Hc|]. split; [exact Hm|].
  intros Hn. rewrite Hl in Hn. destruct j; [reflexivity | now contradiction Hn].
Defined.

(* ================================================================== *)
(** ** Where the images are written, one per chart *)
(* ================================================================== *)

(** *** Names without a path separator *)











(** *** Steps that save, and steps that do not *)







Lemma lift_saves_nothing {A} (r : result A) : saved_paths (events (lift r)) = [].
Proof. reflexivity. Qed.




(** *** Every image is a plain entry of the output directory *)














(** *** One file per chart *)

Lemma print_saves_nothing (msg : string) : saved_paths (events (print msg)) = [].
Proof. reflexivity. Qed.








